(** * GitLab issues exporter: the fetch loop, the record transformation,
      the spreadsheet writer and the console run of [main.py], embedded in
      Rocq.

    Python values are modelled as the JSON values the program receives,
    exceptions as an error monad, the HTTP server as a function from requests
    to responses, and the openpyxl worksheet as a finite map from cell
    coordinates to cells. *)

From Stdlib Require Import ZArith String Ascii List DecimalString Lia.
From Stdlib Require DecimalPos DecimalZ.
From stdpp Require Import gmap strings list.

Set Warnings "-register-all".
Local Open Scope string_scope.

(** ** Python values *)

Module Py.

(** A [dict]: its items by key and, since iterating over a dict yields its
    keys in the order they were inserted, that order beside them. *)
Record dict (A : Type) : Type := Dict {
  dict_items : gmap string A;
  dict_keys : list string
}.
Arguments Dict {A} _ _.
Arguments dict_items {A} _.
Arguments dict_keys {A} _.

#[global] Instance dict_lookup {A : Type} : Lookup string A (dict A) :=
  λ key d, dict_items d !! key.

#[global] Instance dict_empty {A : Type} : Empty (dict A) := Dict ∅ [].

(** [d[key] = v]: a key already there keeps its place, a new one goes
    last. *)
#[global] Instance dict_insert {A : Type} : Insert string A (dict A) :=
  λ key v d,
    Dict (<[key := v]> (dict_items d))
         (if decide (key ∈ dict_keys d) then dict_keys d
          else dict_keys d ++ [key])%list.

(** The dict a JSON object decodes to: its pairs inserted in the order of
    the document. *)
Definition dict_of_list {A : Type} (pairs : list (string * A)) : dict A :=
  foldl (λ d kv, <[kv.1 := kv.2]> d) ∅ pairs.

(** What [response.json()] yields. JSON numbers are the integers. *)
Inductive json : Type :=
  | JNull
  | JBool (b : bool)
  | JInt (z : Z)
  | JStr (s : string)
  | JList (l : list json)
  | JObj (o : dict json).

(** The exceptions the program can raise and does not catch. *)
Inductive exn : Type :=
  | KeyError (key : string)
  | TypeError
  | AttributeError
  | ValueError
  | ParserError
  | IllegalCharacterError.

Inductive result (A : Type) : Type :=
  | Ok (a : A)
  | Raise (e : exn).
Arguments Ok {A} a.
Arguments Raise {A} e.

#[global] Instance result_ret : MRet result := @Ok.
#[global] Instance result_bind : MBind result := λ A B f m,
  match m with
  | Ok a => f a
  | Raise e => Raise e
  end.

Definition succeeds {A : Type} (m : result A) : bool :=
  match m with Ok _ => true | Raise _ => false end.

(** [str(n)] for an int. *)
Definition str_of_Z (z : Z) : string := NilZero.string_of_int (Z.to_int z).

(** A Python [str] is kept as its UTF-8 encoding; [len] counts code points,
    that is the bytes that are not continuation bytes (10xxxxxx). *)
Definition is_continuation (a : ascii) : bool :=
  let n := nat_of_ascii a in (128 <=? n)%nat && (n <? 192)%nat.

Fixpoint len (s : string) : nat :=
  match s with
  | EmptyString => 0
  | String a s' => if is_continuation a then len s' else S (len s')
  end.

(** The code points of a [str], in order: what iterating over it yields. *)
Fixpoint take_continuation (s : string) : string * string :=
  match s with
  | EmptyString => (EmptyString, EmptyString)
  | String a s' =>
      if is_continuation a
      then let '(c, r) := take_continuation s' in (String a c, r)
      else (EmptyString, s)
  end.

Fixpoint chars (fuel : nat) (s : string) : list string :=
  match fuel, s with
  | S fuel', String a s' =>
      let '(c, r) := take_continuation s' in String a c :: chars fuel' r
  | _, _ => []
  end.

(** [sep.join(items)] for a list of [str]. *)
Fixpoint join (sep : string) (items : list string) : string :=
  match items with
  | [] => ""
  | [x] => x
  | x :: rest => x ++ sep ++ join sep rest
  end.

(** [c in s] for a one-character [c]. *)
Fixpoint contains (c : ascii) (s : string) : bool :=
  match s with
  | EmptyString => false
  | String a s' => Ascii.eqb a c || contains c s'
  end.

(** The characters of a decimal numeral. *)
Definition is_digit (c : ascii) : bool :=
  let n := nat_of_ascii c in (48 <=? n)%nat && (n <=? 57)%nat.

(** [obj[key]]: only a dict can be subscripted by a [str]. *)
Definition subscript (obj : json) (key : string) : result json :=
  match obj with
  | JObj o => match o !! key with
              | Some v => Ok v
              | None => Raise (KeyError key)
              end
  | _ => Raise TypeError
  end.

(** [obj.get(key, default)]: only a dict has the method. *)
Definition dict_get (obj : json) (key : string) (dflt : json) : result json :=
  match obj with
  | JObj o => Ok (default dflt (o !! key))
  | _ => Raise AttributeError
  end.

(** The items a [for] or a [join] draws from a value. A dict yields its
    keys, in insertion order. *)
Definition iter (v : json) : result (list json) :=
  match v with
  | JList l => Ok l
  | JStr s => Ok (JStr <$> chars (String.length s) s)
  | JObj o => Ok (JStr <$> dict_keys o)
  | JNull | JBool _ | JInt _ => Raise TypeError
  end.

(** [join] accepts [str] items only. *)
Fixpoint all_str (items : list json) : result (list string) :=
  match items with
  | [] => Ok []
  | JStr s :: rest => ss ← all_str rest; Ok (s :: ss)
  | _ :: _ => Raise TypeError
  end.

Definition join_values (sep : string) (v : json) : result string :=
  items ← iter v; ss ← all_str items; Ok (join sep ss).

(** An int operand: [bool] is a subclass of [int]. *)
Definition as_int (v : json) : option Z :=
  match v with
  | JInt z => Some z
  | JBool b => Some (if b then 1 else 0)%Z
  | _ => None
  end.

End Py.
Import Py.

(** ** Duration formatter *)

(** [format_time_seconds] on an int. [//] and [%] round towards minus
    infinity, as [Z.div] and [Z.modulo] do for a positive divisor. *)
Definition format_time_seconds (seconds : Z) : string :=
  if (seconds =? 0)%Z then "0"
  else
    let hours := (seconds / 3600)%Z in
    let minutes := ((seconds mod 3600) / 60)%Z in
    let remaining_seconds := (seconds mod 60)%Z in
    if (0 <? hours)%Z then
      str_of_Z hours ++ "h " ++ str_of_Z minutes ++ "m "
        ++ str_of_Z remaining_seconds ++ "s"
    else if (0 <? minutes)%Z then
      str_of_Z minutes ++ "m " ++ str_of_Z remaining_seconds ++ "s"
    else
      str_of_Z remaining_seconds ++ "s".

(** The same call on whatever the record holds: [None], a [str], a list or a
    dict is not [== 0] and has no [//]. *)
Definition format_time_value (seconds : json) : result string :=
  match as_int seconds with
  | Some z => Ok (format_time_seconds z)
  | None => Raise TypeError
  end.

(** The formatter as the specification words it, on a natural number of
    seconds. *)
Definition format_spec (s : nat) : string :=
  match s with
  | O => "0"
  | _ =>
    let hours := (s / 3600)%nat in
    let minutes := ((s mod 3600) / 60)%nat in
    let rem := (s mod 60)%nat in
    let show (n : nat) := str_of_Z (Z.of_nat n) in
    if (0 <? hours)%nat then
      show hours ++ "h " ++ show minutes ++ "m " ++ show rem ++ "s"
    else if (0 <? minutes)%nat then
      show minutes ++ "m " ++ show rem ++ "s"
    else
      show rem ++ "s"
  end.

(** ** Dates and times *)

Module DateTime.
Local Open Scope Z_scope.

(** A [datetime.datetime]: the wall-clock fields and, for an aware value,
    the offset from UTC in seconds. *)
Record datetime : Type := mk_datetime {
  year : Z;
  month : Z;
  day : Z;
  hour : Z;
  minute : Z;
  second : Z;
  microsecond : Z;
  utcoffset : option Z
}.

Fixpoint zeros (n : nat) : string :=
  match n with
  | O => ""
  | S n' => String "0" (zeros n')
  end.

(** A number in decimal, zero-padded on the left to [width] digits. *)
Definition pad (width : nat) (n : Z) : string :=
  let s := str_of_Z n in
  zeros (width - String.length s) ++ s.

(** One [strftime] directive, as the C library of a Linux system renders
    it: month, day, hour, minute and second padded to two digits, the year
    in as many digits as it has (other C libraries pad it to four; the two
    agree from the year 1000 on). *)
Definition directive (c : ascii) (d : datetime) : string :=
  match c with
  | "Y"%char => str_of_Z (year d)
  | "m"%char => pad 2 (month d)
  | "d"%char => pad 2 (day d)
  | "H"%char => pad 2 (hour d)
  | "M"%char => pad 2 (minute d)
  | "S"%char => pad 2 (second d)
  | _ => String "%" (String c "")
  end.

(** [d.strftime(fmt)] for the directives the program uses. *)
Fixpoint strftime (fmt : string) (d : datetime) : string :=
  match fmt with
  | EmptyString => ""
  | String "%" (String c rest) => directive c d ++ strftime rest d
  | String a rest => String a (strftime rest d)
  end.

(** [d.replace(tzinfo=...)]: the same wall-clock fields under another
    offset. *)
Definition replace_tzinfo (d : datetime) (off : option Z) : datetime :=
  mk_datetime (year d) (month d) (day d) (hour d) (minute d) (second d)
    (microsecond d) off.

(** [d.isoformat()], for offsets of whole seconds. *)
Definition isoformat_offset (off : Z) : string :=
  let a := Z.abs off in
  (if off <? 0 then "-" else "+")
    ++ pad 2 (a / 3600) ++ ":" ++ pad 2 ((a mod 3600) / 60)
    ++ (if a mod 60 =? 0 then "" else ":" ++ pad 2 (a mod 60)).

(** [isoformat] does not go through the C library: its year has four
    digits always. *)
Definition isoformat (d : datetime) : string :=
  pad 4 (year d) ++ strftime "-%m-%dT%H:%M:%S" d
    ++ (if microsecond d =? 0 then "" else "." ++ pad 6 (microsecond d))
    ++ match utcoffset d with
       | None => ""
       | Some off => isoformat_offset off
       end.

(** *** Reading GitLab's timestamps

    The program hands the timestamp to [dateutil], which is not part of
    it: the transformation below takes the parser as a parameter.
    [iso_parse] is that parser on the ISO-8601 form the API emits,
    [YYYY-MM-DDTHH:MM:SS[.ffffff](Z|+HH:MM|-HH:MM)]: the fields are kept as
    written, with the offset beside them and no conversion to another
    zone. *)

Definition digit_of (a : ascii) : option Z :=
  let n := Z.of_N (N_of_ascii a) in
  if (48 <=? n) && (n <=? 57) then Some (n - 48) else None.

(** Exactly [n] digits, as a number, and the rest of the text. *)
Fixpoint digits (n : nat) (acc : Z) (s : string) : option (Z * string) :=
  match n with
  | O => Some (acc, s)
  | S n' =>
      match s with
      | String a s' => d ← digit_of a; digits n' (10 * acc + d) s'
      | EmptyString => None
      end
  end.

Definition expect (c : ascii) (s : string) : option string :=
  match s with
  | String a s' => if Ascii.eqb a c then Some s' else None
  | EmptyString => None
  end.

(** A fraction of a second: up to six digits count, the rest is dropped. *)
Fixpoint fraction (scale : Z) (acc : Z) (s : string) : Z * string :=
  match s with
  | String a s' =>
      match digit_of a with
      | Some d => fraction (scale / 10) (acc + d * scale) s'
      | None => (acc, s)
      end
  | EmptyString => (acc, s)
  end.

Definition is_leap (y : Z) : bool :=
  (y mod 4 =? 0) && negb (y mod 100 =? 0) || (y mod 400 =? 0).

Definition days_in_month (y m : Z) : Z :=
  match m with
  | 2 => if is_leap y then 29 else 28
  | 4 | 6 | 9 | 11 => 30
  | _ => 31
  end.

Definition parse_offset (s : string) : option (option Z) :=
  match s with
  | EmptyString => Some None
  | String "Z" EmptyString => Some (Some 0)
  | String sign s1 =>
      '(h, s2) ← digits 2 0 s1;
      s3 ← expect ":" s2;
      '(m, s4) ← digits 2 0 s3;
      let off := h * 3600 + m * 60 in
      match s4 with
      | EmptyString =>
          if Ascii.eqb sign "+" then Some (Some off)
          else if Ascii.eqb sign "-" then Some (Some (- off))
          else None
      | _ => None
      end
  end.

Definition iso_parse (s : string) : option datetime :=
  '(y, s) ← digits 4 0 s;
  s ← expect "-" s;
  '(mo, s) ← digits 2 0 s;
  s ← expect "-" s;
  '(d, s) ← digits 2 0 s;
  s ← expect "T" s;
  '(h, s) ← digits 2 0 s;
  s ← expect ":" s;
  '(mi, s) ← digits 2 0 s;
  s ← expect ":" s;
  '(sec, s) ← digits 2 0 s;
  let '(us, s) :=
    match s with
    | String "." s' => fraction 100000 0 s'
    | _ => (0, s)
    end in
  off ← parse_offset s;
  if (1 <=? y) && (1 <=? mo) && (mo <=? 12) && (1 <=? d)
     && (d <=? days_in_month y mo) && (h <? 24) && (mi <? 60)
     && (sec <? 60)
  then Some (mk_datetime y mo d h mi sec us off)
  else None.

End DateTime.
Import DateTime.

(** ** The worksheet

    The sheet is openpyxl's, which is not part of the program. The model
    keeps what the program calls: cells created on demand and addressed by
    row and column, a font and a fill per cell, the extent of the written
    area, its columns, the widths set on columns, and the check the library
    makes on the text given to a cell. *)

Module Sheet.

(** What a cell can hold. *)
Inductive cell_value : Type :=
  | VNone
  | VBool (b : bool)
  | VInt (z : Z)
  | VStr (s : string).

Record font : Type := Font { bold : bool }.

Record pattern_fill : Type := PatternFill {
  start_color : string;
  end_color : string;
  fill_type : string
}.

Record cell : Type := mk_cell {
  value : cell_value;
  cell_font : font;
  cell_fill : option pattern_fill
}.

Definition empty_cell : cell := mk_cell VNone (Font false) None.

(** A sheet: its cells by (row, column), both counted from 1, the extent
    of the written area, and the widths set on columns. The extent is
    kept beside the cells and grows with every cell created. *)
Record worksheet : Type := mk_worksheet {
  title : string;
  cells : gmap (nat * nat) cell;
  max_row : nat;
  max_column : nat;
  column_width : gmap nat nat
}.

Definition new_sheet (title : string) : worksheet :=
  mk_worksheet title ∅ 1 1 ∅.

Definition cell_at (ws : worksheet) (row column : nat) : cell :=
  default empty_cell (cells ws !! (row, column)).

Definition set_cell (ws : worksheet) (row column : nat) (c : cell) : worksheet :=
  mk_worksheet (title ws) (<[(row, column) := c]> (cells ws))
    (Nat.max (max_row ws) row) (Nat.max (max_column ws) column)
    (column_width ws).

(** The characters a cell refuses: the control characters other than
    tab, line feed and carriage return. *)
Definition is_illegal (a : ascii) : bool :=
  let n := Z.of_N (N_of_ascii a) in
  ((n <=? 8) || ((11 <=? n) && (n <=? 12)) || ((14 <=? n) && (n <=? 31)))%Z.

Fixpoint has_illegal (s : string) : bool :=
  match s with
  | EmptyString => false
  | String a s' => is_illegal a || has_illegal s'
  end.

(** [value[:n]]: the first [n] code points of a text. *)
Fixpoint cut (n : Z) (s : string) : string :=
  match s with
  | EmptyString => EmptyString
  | String a s' =>
      if is_continuation a then String a (cut n s')
      else if (n <=? 0)%Z then EmptyString
      else String a (cut (n - 1) s')
  end.

(** The longest text a cell holds, in code points. *)
Definition max_text : Z := 32767.

(** [check_string]: the text is cut to the longest a cell holds, and what
    is left must have none of the refused characters. *)
Definition check_string (s : string) : result string :=
  let s := cut max_text s in
  if has_illegal s then Raise IllegalCharacterError else Ok s.

(** Only scalars convert to a cell value; a list or a dict is refused, and
    text goes through [check_string]. *)
Definition bind_value (v : json) : result cell_value :=
  match v with
  | JNull => Ok VNone
  | JBool b => Ok (VBool b)
  | JInt z => Ok (VInt z)
  | JStr s => s ← check_string s; Ok (VStr s)
  | JList _ | JObj _ => Raise ValueError
  end.

(** A text a cell takes as it is. *)
Definition accepts (s : string) : bool :=
  (Z.of_nat (len s) <=? max_text)%Z && negb (has_illegal s).

(** A value as a cell value without the check on text: what a cell holds
    when it holds the value unchanged. *)
Definition as_cell_value (v : json) : result cell_value :=
  match v with
  | JNull => Ok VNone
  | JBool b => Ok (VBool b)
  | JInt z => Ok (VInt z)
  | JStr s => Ok (VStr s)
  | JList _ | JObj _ => Raise ValueError
  end.

Definition accepted (v : json) : bool :=
  match v with
  | JStr s => accepts s
  | _ => true
  end.

(** [ws.cell(row=, column=, value=)]: the cell is created when it is not
    there, and its value is set unless the value given is [None]. *)
Definition ws_cell (ws : worksheet) (row column : nat) (v : json) : result worksheet :=
  let c := cell_at ws row column in
  match v with
  | JNull => Ok (set_cell ws row column c)
  | _ =>
      cv ← bind_value v;
      Ok (set_cell ws row column (mk_cell cv (cell_font c) (cell_fill c)))
  end.

Definition set_font (ws : worksheet) (row column : nat) (f : font) : worksheet :=
  let c := cell_at ws row column in
  set_cell ws row column (mk_cell (value c) f (cell_fill c)).

Definition set_fill (ws : worksheet) (row column : nat) (p : pattern_fill) : worksheet :=
  let c := cell_at ws row column in
  set_cell ws row column (mk_cell (value c) (cell_font c) (Some p)).

(** [ws.columns]: every column of the written area, each from row 1 down
    to the last row. *)
Definition ws_column (ws : worksheet) (column : nat) : list cell :=
  (λ row, cell_at ws row column) <$> seq 1 (max_row ws).

Definition ws_columns (ws : worksheet) : list (nat * list cell) :=
  (λ column, (column, ws_column ws column)) <$> seq 1 (max_column ws).

(** [ws.column_dimensions[letter].width = w], the column named by its
    index. *)
Definition set_width (ws : worksheet) (column : nat) (w : nat) : worksheet :=
  mk_worksheet (title ws) (cells ws) (max_row ws) (max_column ws)
    (<[column := w]> (column_width ws)).

(** [str(cell.value)]. *)
Definition str_of_value (v : cell_value) : string :=
  match v with
  | VNone => "None"
  | VBool true => "True"
  | VBool false => "False"
  | VInt z => str_of_Z z
  | VStr s => s
  end.

(** A cell of plain style holding a value, and a run of cells laid along
    a row from a column on: what the loops of the writer come to. *)
Definition plain (v : cell_value) : cell := mk_cell v (Font false) None.

Fixpoint put_row (ws : worksheet) (row column : nat) (cs : list cell) : worksheet :=
  match cs with
  | [] => ws
  | c :: rest => put_row (set_cell ws row column c) row (S column) rest
  end.

(** The cell of the data area at row [r], column [c], when the rows are
    laid from row [first] on. *)
Definition data_cell (rows : list (list cell_value)) (first r c : nat) : option cell :=
  vals ← rows !! (r - first); plain <$> vals !! (c - 1).

(** The values of the written area, row by row. *)
Definition ws_values (ws : worksheet) : list (list cell_value) :=
  (λ row, (λ column, value (cell_at ws row column)) <$> seq 1 (max_column ws))
    <$> seq 1 (max_row ws).

End Sheet.
Import Sheet.

(** ** The exporter *)

(** What [__init__] leaves on the object: the token of the request headers,
    the base URL and the project of the configuration. *)
Record exporter : Type := mk_exporter {
  private_token : string;
  base_url : string;
  project_id : string
}.

(** The query parameters of a page request. *)
Record params : Type := mk_params {
  per_page : nat;
  page : nat;
  state : string;
  created_after : option string;
  created_before : option string
}.

Record request : Type := mk_request {
  url : string;
  token : string;
  query : params
}.

(** What a request comes to: the decoded array of a 2xx response, or a
    [RequestException] (transport failure, or [raise_for_status] on another
    status) with its message. *)
Inductive response : Type :=
  | Page (issues : list json)
  | Failed (message : string).

(** What the fetch leaves behind besides its result: the requests issued,
    in order, and the lines printed. *)
Record fetch_log : Type := mk_log {
  requests_sent : list request;
  printed : list string
}.

Definition next_page (p : params) : params :=
  mk_params (per_page p) (S (page p)) (state p) (created_after p) (created_before p).

Definition issues_url (self : exporter) : string :=
  base_url self ++ "/api/v4/projects/" ++ project_id self ++ "/issues".

Definition initial_params (start_date end_date : option datetime) : params :=
  mk_params 100 1 "all" (isoformat <$> start_date) (isoformat <$> end_date).

Section Fetch.

(** The server, as [requests.get] sees it. *)
Variable requests_get : request → response.

(** The [while True] loop; [None] when the fuel runs out with the loop
    still going. *)
Fixpoint fetch_loop (fuel : nat) (self : exporter) (p : params)
    (all_issues : list json) (log : fetch_log) : option (list json * fetch_log) :=
  match fuel with
  | O => None
  | S fuel' =>
      let req := mk_request (issues_url self) (private_token self) p in
      let sent := (requests_sent log ++ [req])%list in
      match requests_get req with
      | Failed e =>
          let line := "Error fetching issues: " ++ e in
          Some ([], mk_log sent (printed log ++ [line])%list)
      | Page issues =>
          match issues with
          | [] => Some (all_issues, mk_log sent (printed log))
          | _ :: _ =>
              let all_issues' := (all_issues ++ issues)%list in
              let line :=
                "Fetched " ++ str_of_Z (Z.of_nat (length all_issues'))
                  ++ " issues so far..." in
              fetch_loop fuel' self (next_page p) all_issues'
                (mk_log sent (printed log ++ [line])%list)
          end
      end
  end.

Definition fetch_issues (fuel : nat) (self : exporter)
    (start_date end_date : option datetime) : option (list json * fetch_log) :=
  fetch_loop fuel self (initial_params start_date end_date) [] (mk_log [] []).

End Fetch.

(** The header row. *)
Definition headers : list string :=
  [ "ID del issue";
    "Título del issue";
    "Descripción del issue";
    "Nombre del autor";
    "Estado del issue";
    "Asignados al issue";
    "Etiquetas del issue";
    "Fecha y hora de creación";
    "Tiempo total estimado";
    "Tiempo total gastado" ].

Definition header_font : font := Font true.
Definition header_fill : pattern_fill := PatternFill "CCCCCC" "CCCCCC" "solid".

Definition header_cell (header : string) : cell :=
  mk_cell (VStr header) header_font (Some header_fill).

(** [for col, header in enumerate(headers, 1)]. *)
Fixpoint write_headers (ws : worksheet) (col : nat) (hs : list string) : result worksheet :=
  match hs with
  | [] => Ok ws
  | header :: rest =>
      ws ← ws_cell ws 1 col (JStr header);
      let ws := set_font ws 1 col header_font in
      let ws := set_fill ws 1 col header_fill in
      write_headers ws (S col) rest
  end.

(** [for col, value in enumerate(data, 1)]. *)
Fixpoint write_values (ws : worksheet) (row col : nat) (data : list json) : result worksheet :=
  match data with
  | [] => Ok ws
  | v :: rest =>
      ws ← ws_cell ws row col v;
      write_values ws row (S col) rest
  end.

(** The longest [str(cell.value)] of a column, from 0. *)
Definition max_length_of (column : list cell) : nat :=
  foldl (λ max_length c,
           let n := len (str_of_value (value c)) in
           if (max_length <? n)%nat then n else max_length)
        0%nat column.

(** The body of the width loop, for one column with its cells. *)
Definition adjust_column (ws : worksheet) (col : nat * list cell) : worksheet :=
  let '(column, cs) := col in
  let adjusted_width := Nat.min (max_length_of cs + 2) 50 in
  set_width ws column adjusted_width.

(** [for column in ws.columns]. *)
Definition adjust_widths (ws : worksheet) : worksheet :=
  foldl adjust_column ws (ws_columns ws).

(** The cell a document of the given Report Rows has at a coordinate: the
    styled header in row 1, the rows from row 2 on, nothing elsewhere. *)
Definition expected_cell (rows : list (list cell_value)) (r c : nat) : option cell :=
  if decide (r = 1 ∧ 1 ≤ c)%nat then header_cell <$> headers !! (c - 1)
  else if decide (2 ≤ r ∧ 1 ≤ c)%nat then data_cell rows 2 r c
  else None.

(** The textual lengths the width loop sees in column [c] (counted from 0):
    the header label's and, for every row, the value's. *)
Definition column_lengths (header : string) (rows : list (list cell_value))
    (c : nat) : list nat :=
  len header :: ((λ row, len (str_of_value (default VNone (row !! c)))) <$> rows).

Section Writer.

(** [dateutil.parser.parse] on a [str]: the date-time read, or [None]
    where it raises. *)
Variable parse : string → option datetime.

Definition parser_parse (v : json) : result datetime :=
  match v with
  | JStr s => match parse s with
              | Some d => Ok d
              | None => Raise ParserError
              end
  | _ => Raise TypeError
  end.

(** The body of the data loop up to the list [data]: one record to its ten
    values. *)
Definition issue_data (issue : json) : result (list json) :=
  assignees_v ← dict_get issue "assignees" (JList []);
  items ← iter assignees_v;
  names ← mapM (λ assignee, subscript assignee "name") items;
  names ← all_str names;
  let assignees := join ", " names in
  labels_v ← dict_get issue "labels" (JList []);
  labels ← join_values ", " labels_v;
  created_v ← subscript issue "created_at";
  created ← parser_parse created_v;
  let created_at := strftime "%Y-%m-%d %H:%M:%S" created in
  time_stats ← dict_get issue "time_stats" (JObj ∅);
  estimate_v ← dict_get time_stats "time_estimate" (JInt 0);
  estimated_time ← format_time_value estimate_v;
  spent_v ← dict_get time_stats "total_time_spent" (JInt 0);
  spent_time ← format_time_value spent_v;
  iid ← subscript issue "iid";
  title ← subscript issue "title";
  description ← dict_get issue "description" (JStr "");
  author ← subscript issue "author";
  author_name ← subscript author "name";
  issue_state ← subscript issue "state";
  Ok [ iid; title; description; author_name; issue_state;
       JStr assignees; JStr labels; JStr created_at;
       JStr estimated_time; JStr spent_time ].

(** The Report Row of a record: its ten values as the cells keep them,
    text cut to the longest a cell holds; none when a cell refuses one. *)
Definition report_row (issue : json) : result (list cell_value) :=
  data ← issue_data issue;
  mapM bind_value data.

(** The ten values of a record as the transformation made them, text
    uncut and unchecked. *)
Definition transformed_row (issue : json) : result (list cell_value) :=
  data ← issue_data issue;
  mapM as_cell_value data.

(** A record whose transformation makes no text that a cell would cut
    or refuse. *)
Definition storable (issue : json) : bool :=
  match issue_data issue with
  | Ok data => forallb accepted data
  | Raise _ => true
  end.

(** [for row, issue in enumerate(issues, 2)]. *)
Fixpoint write_issues (ws : worksheet) (row : nat) (issues : list json) : result worksheet :=
  match issues with
  | [] => Ok ws
  | issue :: rest =>
      data ← issue_data issue;
      ws ← write_values ws row 1 data;
      write_issues ws (S row) rest
  end.

(** [export_to_excel]: the name and the sheet handed to [wb.save], or the
    exception that ends the call before anything is saved. [now] is the
    clock read for the default name. *)
Definition export_to_excel (now : datetime) (issues : list json)
    (filename : option string) : result (string * worksheet) :=
  let filename :=
    match filename with
    | Some (String a f) => String a f
    | Some EmptyString | None =>
        "gitlab_issues_" ++ strftime "%Y%m%d_%H%M%S" now ++ ".xlsx"
    end in
  let ws := new_sheet "GitLab Issues" in
  ws ← write_headers ws 1 headers;
  ws ← write_issues ws 2 issues;
  let ws := adjust_widths ws in
  Ok (filename, ws).

(** *** Well-formed records

    An Issue Record of the data model: the required fields with their
    types and a timestamp that parses; the optional ones absent or of
    their type. *)

Definition is_text (v : json) : bool :=
  match v with JStr _ => true | _ => false end.

Definition is_optional_text (v : json) : bool :=
  match v with JStr _ | JNull => true | _ => false end.

Definition is_number (v : json) : bool :=
  match v with JInt _ => true | _ => false end.

Definition is_named (v : json) : bool :=
  match v with
  | JObj a => match a !! "name" with Some (JStr _) => true | _ => false end
  | _ => false
  end.

Definition is_list_of (P : json → bool) (v : json) : bool :=
  match v with JList l => forallb P l | _ => false end.

Definition is_time_stats (v : json) : bool :=
  match v with
  | JObj ts =>
      from_option is_number true (ts !! "time_estimate")
      && from_option is_number true (ts !! "total_time_spent")
  | _ => false
  end.

Definition is_timestamp (v : json) : bool :=
  match v with
  | JStr s => match parse s with Some _ => true | None => false end
  | _ => false
  end.

Definition well_formed (issue : json) : bool :=
  match issue with
  | JObj o =>
      from_option is_number false (o !! "iid")
      && from_option is_text false (o !! "title")
      && from_option is_optional_text true (o !! "description")
      && from_option is_named false (o !! "author")
      && from_option is_text false (o !! "state")
      && from_option (is_list_of is_named) true (o !! "assignees")
      && from_option (is_list_of is_text) true (o !! "labels")
      && from_option is_timestamp false (o !! "created_at")
      && from_option is_time_stats true (o !! "time_stats")
  | _ => false
  end.

(** A record that lacks a required field, or whose timestamp does not
    parse. *)
Definition lacks_required (o : dict json) : Prop :=
  o !! "iid" = None ∨ o !! "title" = None ∨ o !! "author" = None
  ∨ (∃ a, o !! "author" = Some (JObj a) ∧ a !! "name" = None)
  ∨ o !! "state" = None ∨ o !! "created_at" = None
  ∨ (∃ s, o !! "created_at" = Some (JStr s) ∧ parse s = None).

End Writer.

(** The request for page [n] of a fetch. *)
Definition page_request (self : exporter) (start_date end_date : option datetime)
    (n : nat) : request :=
  mk_request (issues_url self) (private_token self)
    (mk_params 100 n "all" (isoformat <$> start_date) (isoformat <$> end_date)).

(** ** Sample data *)

Module Examples.

Definition gitlab : exporter :=
  mk_exporter "glpat-0000" "https://gitlab.com" "42".

Definition person (name : string) : json := JObj (dict_of_list [ ("name", JStr name) ]).

(** A record as the API gives it. *)
Definition fields_full : dict json :=
  dict_of_list
    [ ("iid", JInt 7);
      ("title", JStr "Arreglar título");
      ("description", JStr "No se ve");
      ("author", person "Ana");
      ("state", JStr "opened");
      ("assignees", JList [person "Ana"; person "Luis"]);
      ("labels", JList [JStr "bug"; JStr "ui"]);
      ("created_at", JStr "2024-01-15T23:30:00.000+02:00");
      ("time_stats",
        JObj (dict_of_list
          [ ("time_estimate", JInt 5400); ("total_time_spent", JInt 0) ])) ].

Definition issue_full : json := JObj fields_full.

(** A record with the required fields only. *)
Definition fields_bare : dict json :=
  dict_of_list
    [ ("iid", JInt 8);
      ("title", JStr "Sin detalles");
      ("author", person "Luis");
      ("state", JStr "closed");
      ("created_at", JStr "2024-02-29T08:05:09Z") ].

Definition issue_bare : json := JObj fields_bare.

(** A record without its title. *)
Definition fields_untitled : dict json :=
  dict_of_list
    [ ("iid", JInt 9);
      ("author", person "Luis");
      ("state", JStr "closed");
      ("created_at", JStr "2024-02-29T08:05:09Z") ].

Definition issue_untitled : json := JObj fields_untitled.

(** What the transformation makes of the first two records. *)
Definition data_full : list json :=
  [ JInt 7; JStr "Arreglar título"; JStr "No se ve"; JStr "Ana";
    JStr "opened"; JStr "Ana, Luis"; JStr "bug, ui";
    JStr "2024-01-15 23:30:00"; JStr "1h 30m 0s"; JStr "0" ].

Definition row_full : list cell_value :=
  [ VInt 7; VStr "Arreglar título"; VStr "No se ve"; VStr "Ana";
    VStr "opened"; VStr "Ana, Luis"; VStr "bug, ui";
    VStr "2024-01-15 23:30:00"; VStr "1h 30m 0s"; VStr "0" ].

Definition row_bare : list cell_value :=
  [ VInt 8; VStr "Sin detalles"; VStr ""; VStr "Luis"; VStr "closed";
    VStr ""; VStr ""; VStr "2024-02-29 08:05:09"; VStr "0"; VStr "0" ].

Definition created_full : datetime :=
  mk_datetime 2024 1 15 23 30 0 0 (Some 7200%Z).

Definition clock : datetime := mk_datetime 2024 3 1 9 30 0 0 None.

(** A project of three issues on two pages. *)
Definition server (r : request) : response :=
  match page (query r) with
  | 1 => Page [issue_full; issue_bare]
  | 2 => Page [issue_full]
  | _ => Page []
  end.

(** The same project when the second request is refused. *)
Definition server_down (r : request) : response :=
  match page (query r) with
  | 1 => Page [issue_full; issue_bare]
  | _ => Failed "503 Server Error"
  end.

End Examples.

(** ** What the fetch prints *)

(** The progress lines of a run of pages, [n] records being held before
    them: one line per page, with the running total. *)
Fixpoint progress_lines (n : nat) (pages : list (list json)) : list string :=
  match pages with
  | [] => []
  | p :: rest =>
      let total := (n + length p)%nat in
      ("Fetched " ++ str_of_Z (Z.of_nat total) ++ " issues so far...")
        :: progress_lines total rest
  end.

(** The line printed when a request fails. *)
Definition error_line (message : string) : string :=
  "Error fetching issues: " ++ message.

(** ** Decimal digits *)

(** The character of a decimal digit. *)
Definition digit_char (d : Z) : ascii := ascii_of_N (Z.to_N (48 + d)).

(** A digit put before the digits of a decimal numeral. *)
Definition uint_digit (d : Z) (l : Decimal.uint) : Decimal.uint :=
  match d with
  | 0 => Decimal.D0 l
  | 1 => Decimal.D1 l
  | 2 => Decimal.D2 l
  | 3 => Decimal.D3 l
  | 4 => Decimal.D4 l
  | 5 => Decimal.D5 l
  | 6 => Decimal.D6 l
  | 7 => Decimal.D7 l
  | 8 => Decimal.D8 l
  | _ => Decimal.D9 l
  end%Z.

(** A number below 10000 written in four digits, and one below 100 in
    two. *)
Definition four_digits (v : Z) : string :=
  String (digit_char (v / 1000))
    (String (digit_char (v / 100 mod 10))
       (String (digit_char (v / 10 mod 10))
          (String (digit_char (v mod 10)) ""))).

Definition two_digits (v : Z) : string :=
  String (digit_char (v / 10)) (String (digit_char (v mod 10)) "").

(** ** The fields of a record *)

(** The keys the transformation looks up in a record. *)
Definition issue_keys : list string :=
  [ "assignees"; "labels"; "created_at"; "time_stats"; "iid"; "title";
    "description"; "author"; "state" ].

(** The optional lists and statistics of a record are absent or of their
    type. *)
Definition optional_ok (o : dict json) : bool :=
  from_option (is_list_of is_named) true (o !! "assignees")
  && from_option (is_list_of is_text) true (o !! "labels")
  && from_option is_time_stats true (o !! "time_stats").

(** ** The console and the configuration *)

(** What goes to standard output: a printed line, or the prompt of an
    [input] call (no line end follows it). *)
Inductive output : Type :=
  | Print (line : string)
  | Prompt (text : string).

(** The white space [str.strip] removes, by code point: U+0009 to U+000D,
    U+001C to U+0020, U+0085, U+00A0, U+1680, U+2000 to U+200A, U+2028,
    U+2029, U+202F, U+205F and U+3000, here in their UTF-8 encoding. *)
Definition is_space (c : string) : bool :=
  match N_of_ascii <$> list_ascii_of_string c with
  | [b] => ((9 <=? b) && (b <=? 13) || (28 <=? b) && (b <=? 32))%N
  | [194; b] => ((b =? 133) || (b =? 160))%N
  | [225; 154; 128] => true
  | [226; 128; b] =>
      ((128 <=? b) && (b <=? 138) || (b =? 168) || (b =? 169) || (b =? 175))%N
  | [226; 129; 159] => true
  | [227; 128; 128] => true
  | _ => false
  end%N.

Fixpoint lstrip (cs : list string) : list string :=
  match cs with
  | c :: rest => if is_space c then lstrip rest else cs
  | [] => []
  end.

(** [s.strip()]. *)
Definition strip (s : string) : string :=
  let cs := chars (String.length s) s in
  String.concat "" (reverse (lstrip (reverse (lstrip cs)))).

(** What [input] or the reading of a date comes to: a value, or the
    [EOFError] of an exhausted standard input. *)
Inductive read (A : Type) : Type :=
  | Got (a : A)
  | EOF.
Arguments Got {A} a.
Arguments EOF {A}.

Definition invalid_date_line : string :=
  "Formato de fecha inválido. Use YYYY-MM-DD (ejemplo: 2024-01-15)".

Section Input.

(** [datetime.strptime(text, "%Y-%m-%d")]: the date read, or [None] where
  it raises [ValueError]. *)
Variable strptime : string → option datetime.

(** [get_date_input]: the lines of standard input still unread go in; the
  date (or [None] for a blank line), the lines left and what was written
  come out. Every turn of the loop takes one line. *)
Fixpoint get_date_input (prompt : string) (stdin : list string)
  : read (option datetime) * list string * list output :=
match stdin with
| [] => (EOF, [], [Prompt prompt])
| line :: rest =>
    let date_str := strip line in
    match date_str with
    | EmptyString => (Got None, rest, [Prompt prompt])
    | _ =>
        match strptime date_str with
        | Some d => (Got (Some d), rest, [Prompt prompt])
        | None =>
            let '(r, unread, out) := get_date_input prompt rest in
            (r, unread, Prompt prompt :: Print invalid_date_line :: out)
        end
    end
end.

End Input.

(** The file [open] finds at a path: none, one that cannot be opened or
    decoded (an exception other than [FileNotFoundError]), or a text. *)
Inductive file_state : Type :=
  | NoFile
  | Unreadable
  | FileText (content : string).

(** The configuration: a JSON object whose values, where present, are
    text ([project_id] as the text the URL takes). *)
Record config : Type := mk_config {
  gitlab_token : option string;
  config_project_id : option string;
  gitlab_url : option string
}.

(** The exceptions that can end the program, and how a run ends. *)
Inductive uncaught : Type :=
  | PyExn (e : exn)
  | EOFError
  | OpenError
  | SaveError.

Inductive status : Type :=
  | Returned
  | SysExit (code : Z)
  | Crashed (e : uncaught).

(** The object [__init__] makes: the configuration, the token of the
    request headers and the base URL. *)
Record instance : Type := mk_instance {
  inst_config : config;
  inst_token : string;
  inst_base_url : string
}.

(** What a run of [main] leaves: the output, the input not read, the
    requests sent, the document saved with its name, and how it ended. *)
Record run : Type := mk_run {
  stdout : list output;
  stdin_left : list string;
  sent : list request;
  saved : option (string * worksheet);
  ended : status
}.

Definition banner : list output :=
  [ Print "GitLab Issues Exporter";
    Print "==============================" ].

Definition no_issues_line : string :=
  "No se encontraron issues en el rango de fechas especificado.".

Section Main.

Variable requests_get : request → response.
Variable parse : string → option datetime.
Variable strptime : string → option datetime.

(** [json.load] on the text of the configuration file: the object read,
  or [None] where it raises [JSONDecodeError]. *)
Variable json_load : string → option config.

(** [load_config]: the configuration, or the line printed and the way the
  call ends otherwise. *)
Definition load_config (fs : string → file_state) (config_file : string)
  : list output * (status + config) :=
match fs config_file with
| NoFile =>
    ([Print ("Error: Configuration file '" ++ config_file ++ "' not found.")],
     inl (SysExit 1))
| Unreadable => ([], inl (Crashed OpenError))
| FileText content =>
    match json_load content with
    | Some c => ([], inr c)
    | None =>
        ([Print ("Error: Invalid JSON in configuration file '"
                   ++ config_file ++ "'.")],
         inl (SysExit 1))
    end
end.

(** [GitLabIssuesExporter(config_file)]. *)
Definition init (fs : string → file_state) (config_file : string)
  : list output * (status + instance) :=
match load_config fs config_file with
| (out, inl s) => (out, inl s)
| (out, inr c) =>
    match gitlab_token c with
    | None => (out, inl (Crashed (PyExn (KeyError "gitlab_token"))))
    | Some t =>
        (out, inr (mk_instance c t (default "https://gitlab.com" (gitlab_url c))))
    end
end.

(** The part of [main] from the fetch on, for an object and a date range.
  The line printed first starts with a line feed: it shows as an empty
  line and the text. [writable] tells whether [wb.save] can write under a
  name; where it cannot, the call ends in an exception of the system. *)
Definition fetch_and_export (fuel : nat) (writable : string → bool)
  (now : datetime) (self : instance) (start_date end_date : option datetime)
  : option (list output * list request * option (string * worksheet) * status) :=
let out := [Print ""; Print "Obteniendo issues de GitLab..."] in
match config_project_id (inst_config self) with
| None => Some (out, [], None, Crashed (PyExn (KeyError "project_id")))
| Some p =>
    let exporter := mk_exporter (inst_token self) (inst_base_url self) p in
    match fetch_issues requests_get fuel exporter start_date end_date with
    | None => None
    | Some (issues, log) =>
        let out := (out ++ (Print <$> printed log))%list in
        match issues with
        | [] =>
            Some ((out ++ [Print no_issues_line])%list,
                  requests_sent log, None, Returned)
        | _ :: _ =>
            let found :=
              "Se encontraron " ++ str_of_Z (Z.of_nat (length issues))
                ++ " issues." in
            let out := (out ++ [Print found; Print "Exportando a Excel..."])%list in
            match export_to_excel parse now issues None with
            | Raise e => Some (out, requests_sent log, None, Crashed (PyExn e))
            | Ok (filename, ws) =>
                if writable filename then
                  let exported := "Issues exportados exitosamente a: " ++ filename in
                  Some ((out ++ [Print exported])%list, requests_sent log,
                        Some (filename, ws), Returned)
                else Some (out, requests_sent log, None, Crashed SaveError)
            end
        end
    end
end.

(** [main]. [None] when the fetch is still going with the fuel spent. *)
Definition main (fuel : nat) (fs : string → file_state)
  (writable : string → bool) (now : datetime) (stdin : list string)
  : option run :=
match fs "config.json" with
| NoFile =>
    let line := "Error: config.json file not found. Please create it first." in
    Some (mk_run (banner ++ [Print line])%list stdin [] None Returned)
| _ =>
    match init fs "config.json" with
    | (out, inl s) => Some (mk_run (banner ++ out)%list stdin [] None s)
    | (out, inr self) =>
        let out :=
          (banner ++ out
             ++ [ Print "Ingrese el rango de fechas para filtrar los issues:";
                  Print "(Deje en blanco para no filtrar por fecha)" ])%list in
        match get_date_input strptime "Fecha de inicio (YYYY-MM-DD): " stdin with
        | (EOF, unread, out1) =>
            Some (mk_run (out ++ out1)%list unread [] None (Crashed EOFError))
        | (Got start_date, unread, out1) =>
            match get_date_input strptime "Fecha de fin (YYYY-MM-DD): " unread with
            | (EOF, unread, out2) =>
                Some (mk_run (out ++ out1 ++ out2)%list unread [] None
                        (Crashed EOFError))
            | (Got end_date, unread, out2) =>
                match fetch_and_export fuel writable now self start_date end_date with
                | None => None
                | Some (out3, reqs, doc, s) =>
                    Some (mk_run (out ++ out1 ++ out2 ++ out3)%list unread reqs doc s)
                end
            end
        end
    end
end.

End Main.

(** What [n] refused lines put on the output: the prompt and the complaint,
    [n] times. *)
Fixpoint retries (prompt : string) (n : nat) : list output :=
  match n with
  | O => []
  | S n' => Prompt prompt :: Print invalid_date_line :: retries prompt n'
  end.

Definition start_prompt : string := "Fecha de inicio (YYYY-MM-DD): ".
Definition end_prompt : string := "Fecha de fin (YYYY-MM-DD): ".

(** A line [get_date_input] refuses: not blank, and no date. *)
Definition refused (strptime : string → option datetime) (line : string) : Prop :=
  strip line ≠ "" ∧ strptime (strip line) = None.

(** [main] gets as far as the fetch, with the object [self], the dates
    [start_date] and [end_date], and [unread] left of the input: the
    configuration is there with its token, and both dates were read. *)
Definition reaches_fetch (strptime : string → option datetime)
    (json_load : string → option config) (fs : string → file_state)
    (stdin : list string) (self : instance)
    (start_date end_date : option datetime) (unread : list string) : Prop :=
  ∃ content c t stdin1 out1 out2,
    fs "config.json" = FileText content ∧
    json_load content = Some c ∧
    gitlab_token c = Some t ∧
    self = mk_instance c t (default "https://gitlab.com" (gitlab_url c)) ∧
    get_date_input strptime start_prompt stdin = (Got start_date, stdin1, out1) ∧
    get_date_input strptime end_prompt stdin1 = (Got end_date, unread, out2).

(** The exporter the requests of an object are made for, given the
    project of its configuration. *)
Definition exporter_of (self : instance) (project : string) : exporter :=
  mk_exporter (inst_token self) (inst_base_url self) project.

Module Samples.

(** What the fetch of the sample project comes to. *)
Definition fetched : list json :=
[Examples.issue_full; Examples.issue_bare; Examples.issue_full].

Definition fetched_log : fetch_log :=
mk_log (page_request Examples.gitlab None None <$> [1; 2; 3])
  ["Fetched 2 issues so far..."; "Fetched 3 issues so far..."].

(** A server that has records on every page. *)
Definition server_endless (r : request) : response :=
Page [Examples.issue_full].

Definition config_text : string := "(the text of config.json)".

Definition config_full : config :=
mk_config (Some "glpat-0000") (Some "42") None.

Definition config_no_project : config :=
mk_config (Some "glpat-0000") None (Some "https://gitlab.example.org").

Definition files (path : string) : file_state :=
if String.eqb path "config.json" then FileText config_text else NoFile.

Definition json_load_full (text : string) : option config :=
if String.eqb text config_text then Some config_full else None.

Definition json_load_no_project (text : string) : option config :=
if String.eqb text config_text then Some config_no_project else None.

(** A reading of dates written as four, two and two digits. *)
Definition strptime_digits (text : string) : option datetime :=
'(y, s) ← digits 4 0 text;
s ← expect "-" s;
'(m, s) ← digits 2 0 s;
s ← expect "-" s;
'(d, s) ← digits 2 0 s;
match s with
| EmptyString =>
    if ((1 <=? y) && (1 <=? m) && (m <=? 12) && (1 <=? d)
        && (d <=? days_in_month y m))%Z
    then Some (mk_datetime y m d 0 0 0 0 None)
    else None
| _ => None
end.

Definition instance_full : instance :=
mk_instance config_full "glpat-0000" "https://gitlab.com".

Definition instance_no_project : instance :=
mk_instance config_no_project "glpat-0000" "https://gitlab.example.org".

Definition always_writable (name : string) : bool := true.

Definition new_year : datetime := mk_datetime 2024 1 1 0 0 0 0 None.

(** A record with a field the exporter does not know. *)
Definition fields_weighted : dict json :=
<["weight" := JInt 3]> Examples.fields_bare.

(** A record dated in the year 999. *)
Definition fields_early : dict json :=
dict_of_list
  [ ("iid", JInt 1);
    ("title", JStr "Acta");
    ("author", Examples.person "Ana");
    ("state", JStr "closed");
    ("created_at", JStr "0999-01-15T00:00:00Z") ].

Definition early : datetime := mk_datetime 999 1 15 0 0 0 0 (Some 0%Z).

Definition data_early : list json :=
[ JInt 1; JStr "Acta"; JStr ""; JStr "Ana"; JStr "closed"; JStr "";
  JStr ""; JStr "999-01-15 00:00:00"; JStr "0"; JStr "0" ].

(** A record whose title holds the escape character of a coloured log
  line. *)
Definition title_control : string := String "027" "[31mError".

Definition fields_control : dict json :=
<["title" := JStr title_control]> Examples.fields_bare.

Definition issue_control : json := JObj fields_control.

(** Two label objects of the same items, inserted in different orders. *)
Definition labels_ab : dict json :=
dict_of_list [ ("a", JInt 1); ("b", JInt 2) ].

Definition labels_ba : dict json :=
dict_of_list [ ("b", JInt 2); ("a", JInt 1) ].

(** The export of two sample records, and a whole run on the sample
  project with both dates left blank. *)
Definition exported : string * worksheet :=
Eval vm_compute in
  match export_to_excel iso_parse Examples.clock
          [Examples.issue_full; Examples.issue_bare] None with
  | Ok doc => doc
  | Raise _ => ("", new_sheet "")
  end.

Definition run_full : run :=
Eval vm_compute in
  match main Examples.server iso_parse strptime_digits json_load_full 5
          files always_writable Examples.clock [""; ""; "unread"] with
  | Some r => r
  | None => mk_run [] [] [] None Returned
  end.

Definition saved_full : string * worksheet :=
Eval vm_compute in
  match saved run_full with
  | Some doc => doc
  | None => ("", new_sheet "")
  end.

End Samples.

(** ** Properties of the Python primitives *)

Lemma string_app_assoc (s1 s2 s3 : string) :
  (s1 ++ s2) ++ s3 = s1 ++ s2 ++ s3.
Proof.
  induction s1 as [|a s1 IH]; [reflexivity|].
  change (String a ((s1 ++ s2) ++ s3) = String a (s1 ++ s2 ++ s3)).
  by rewrite IH.
Qed.

Lemma string_app_nil_r (s : string) : s ++ "" = s.
Proof.
  induction s as [|a s IH]; [reflexivity|].
  change (String a (s ++ "") = String a s). by rewrite IH.
Qed.

Lemma contains_app (c : ascii) (s1 s2 : string) :
  contains c (s1 ++ s2) = contains c s1 || contains c s2.
Proof.
  induction s1 as [|a s1 IH]; simpl; [done|].
  by rewrite IH, orb_assoc.
Qed.

(** A decimal numeral holds digits only. *)
Lemma contains_string_of_uint (c : ascii) (u : Decimal.uint) :
  is_digit c = false → contains c (NilEmpty.string_of_uint u) = false.
Proof.
  intros Hc. induction u; cbn [contains NilEmpty.string_of_uint]; [done|..];
    rewrite IHu, orb_false_r;
    apply Ascii.eqb_neq; intros <-; discriminate Hc.
Qed.

Lemma contains_str_of_Z (c : ascii) (z : Z) :
  (0 <= z)%Z → is_digit c = false → contains c (str_of_Z z) = false.
Proof.
  intros Hz Hc. unfold str_of_Z.
  assert (H0 : contains c "0" = false).
  { cbn [contains]. rewrite orb_false_r. apply Ascii.eqb_neq.
    intros <-. discriminate Hc. }
  assert (Hu : ∀ u, contains c (NilZero.string_of_uint u) = false).
  { intros u. unfold NilZero.string_of_uint.
    destruct u; [done|..]; by apply contains_string_of_uint. }
  destruct z as [|p|p]; [done|apply Hu|lia].
Qed.

(** ** The duration formatter *)

Lemma Z_ltb_of_nat (a : nat) : (0 <? Z.of_nat a)%Z = (0 <? a)%nat.
Proof.
  destruct (Nat.ltb_spec 0 a); [apply Z.ltb_lt|apply Z.ltb_ge]; lia.
Qed.

(** C6: on every non-negative number of seconds [format_time_seconds] is the
    formatter of the specification: "0" for 0, else hours, minutes and
    seconds when there is a full hour, minutes and seconds when there is a
    full minute, seconds alone otherwise; and it gives "59s", "1m 0s",
    "59m 59s" and "1h 0m 0s" at 59, 60, 3599 and 3600. *)
Theorem format_time_seconds_spec :
  (∀ s : nat, format_time_seconds (Z.of_nat s) = format_spec s) ∧
  format_time_seconds 59 = "59s" ∧
  format_time_seconds 60 = "1m 0s" ∧
  format_time_seconds 3599 = "59m 59s" ∧
  format_time_seconds 3600 = "1h 0m 0s".
Proof.
  split; [|by vm_compute].
  intros s. unfold format_time_seconds, format_spec.
  destruct s as [|n]; [done|].
  set (s := S n).
  replace (Z.of_nat s =? 0)%Z with false by (symmetry; apply Z.eqb_neq; lia).
  rewrite !Nat2Z.inj_div, !Nat2Z.inj_mod.
  change (Z.of_nat 3600) with 3600%Z. change (Z.of_nat 60) with 60%Z.
  rewrite <- (Z_ltb_of_nat (s / 3600)), <- (Z_ltb_of_nat ((s mod 3600) / 60)).
  rewrite !Nat2Z.inj_div, !Nat2Z.inj_mod.
  reflexivity.
Qed.

Lemma format_time_seconds_cases (s : Z) :
  (0 < s)%Z →
  format_time_seconds s =
    if (3600 <=? s)%Z then
      str_of_Z (s / 3600) ++ "h " ++ str_of_Z ((s mod 3600) / 60) ++ "m "
        ++ str_of_Z (s mod 60) ++ "s"
    else if (60 <=? s)%Z then
      str_of_Z ((s mod 3600) / 60) ++ "m " ++ str_of_Z (s mod 60) ++ "s"
    else str_of_Z (s mod 60) ++ "s".
Proof.
  intros Hs. unfold format_time_seconds.
  replace (s =? 0)%Z with false by (symmetry; apply Z.eqb_neq; lia).
  destruct (Z.leb_spec 3600 s) as [H1|H1].
  - replace (0 <? s / 3600)%Z with true; [done|].
    symmetry. apply Z.ltb_lt. apply Z.div_str_pos. lia.
  - rewrite Z.div_small by lia. cbn [Z.ltb Z.compare].
    rewrite (Z.mod_small s 3600) by lia.
    destruct (Z.leb_spec 60 s) as [H2|H2].
    + replace (0 <? s / 60)%Z with true; [done|].
      symmetry. apply Z.ltb_lt. apply Z.div_str_pos. lia.
    + by rewrite Z.div_small by lia.
Qed.

(** C7: for a non-negative number of seconds the text holds an "h" exactly
    from 3600 on and an "m" exactly from 60 on, and the text for 0 is "0". *)
Theorem format_time_seconds_letters (s : Z) :
  (0 <= s)%Z →
  (contains "h" (format_time_seconds s) = true ↔ (3600 <= s)%Z) ∧
  (contains "m" (format_time_seconds s) = true ↔ (60 <= s)%Z) ∧
  format_time_seconds 0 = "0".
Proof.
  intros Hs.
  assert (Hd : ∀ c z, is_digit c = false → (0 <= z)%Z →
                      contains c (str_of_Z z) = false)
    by (intros; by apply contains_str_of_Z).
  assert (H1 : (0 <= s / 3600)%Z) by (apply Z.div_pos; lia).
  assert (H2 : (0 <= (s mod 3600) / 60)%Z).
  { apply Z.div_pos; [|lia]. apply Z.mod_pos_bound. lia. }
  assert (H3 : (0 <= s mod 60)%Z) by (apply Z.mod_pos_bound; lia).
  destruct (Z.eq_dec s 0%Z) as [->|Hne].
  { vm_compute. repeat split; intros; done. }
  rewrite format_time_seconds_cases by lia.
  destruct (Z.leb_spec 3600 s); [|destruct (Z.leb_spec 60 s)];
    rewrite !contains_app, !Hd by done; cbn; (split; [|split]);
    first [done | split; [intros; lia|done] | split; [done|intros; lia]].
Qed.

Lemma format_time_seconds_letters_witness :
  (0 <= 3725)%Z ∧
  (contains "h" (format_time_seconds 3725) = true ↔ (3600 <= 3725)%Z) ∧
  (contains "m" (format_time_seconds 3725) = true ↔ (60 <= 3725)%Z) ∧
  format_time_seconds 0 = "0".
Proof.
  assert (H : (0 <= 3725)%Z) by lia.
  split; [exact H|]. exact (format_time_seconds_letters 3725 H).
Defined.

(** ** The paginated fetch *)

Section FetchProofs.

Variable requests_get : request → response.
Variable self : exporter.
Variables start_date end_date : option datetime.

Local Abbreviation req := (page_request self start_date end_date).
Local Abbreviation params_at n :=
  (mk_params 100 n "all" (isoformat <$> start_date) (isoformat <$> end_date)).

(** The loop over a run of non-empty pages starting at page [k]: it comes
    to the response after them with every page appended and one request
    sent per page. *)
Lemma fetch_loop_pages (pages : list (list json)) :
  ∀ (k fuel : nat) (acc : list json) (log : fetch_log),
    Forall (λ p, p ≠ []) pages →
    (∀ i p, pages !! i = Some p → requests_get (req (k + i)) = Page p) →
    ∃ out,
      fetch_loop requests_get (length pages + fuel) self (params_at k) acc log =
      fetch_loop requests_get fuel self (params_at (k + length pages))
        (acc ++ concat pages)
        (mk_log (requests_sent log ++ (req <$> seq k (length pages))) out).
Proof.
  induction pages as [|p pages IH]; intros k fuel acc log Hne Hget.
  - exists (printed log). cbn [length concat seq fmap list_fmap].
    rewrite !app_nil_r, Nat.add_0_r. by destruct log.
  - apply Forall_cons in Hne as [Hp Hne].
    cbn [length Nat.add fetch_loop].
    change (mk_request (issues_url self) (private_token self) (params_at k))
      with (req k).
    pose proof (Hget 0 p eq_refl) as H0. rewrite Nat.add_0_r in H0.
    rewrite H0.
    destruct p as [|x p]; [done|].
    change (next_page (params_at k)) with (params_at (S k)).
    edestruct (IH (S k) fuel) as [out Hout]; [done| |].
    { intros i q Hq. rewrite Nat.add_succ_comm. by apply (Hget (S i)). }
    rewrite Hout. exists out.
    cbn [requests_sent concat seq fmap list_fmap].
    rewrite <- !app_assoc. cbn [app].
    by rewrite Nat.add_succ_comm.
Qed.

(** C1: when the pages 1 to n are non-empty and page n+1 is the first empty
    one, the fetch ends there, having issued exactly the n+1 requests in
    page order, and returns the records of pages 1 to n concatenated in
    that order. *)
Theorem fetch_issues_until_empty_page (pages : list (list json)) (fuel : nat) :
  Forall (λ p, p ≠ []) pages →
  (∀ i p, pages !! i = Some p → requests_get (req (S i)) = Page p) →
  requests_get (req (S (length pages))) = Page [] →
  length pages < fuel →
  ∃ log,
    fetch_issues requests_get fuel self start_date end_date
      = Some (concat pages, log) ∧
    requests_sent log = req <$> seq 1 (S (length pages)).
Proof.
  intros Hne Hget Hlast Hfuel.
  replace fuel with (length pages + S (fuel - S (length pages))) by lia.
  unfold fetch_issues.
  change (initial_params start_date end_date) with (params_at 1).
  destruct (fetch_loop_pages pages 1 (S (fuel - S (length pages))) []
              (mk_log [] []) Hne Hget) as [out ->].
  cbn [fetch_loop].
  change (mk_request (issues_url self) (private_token self)
            (params_at (1 + length pages)))
    with (req (S (length pages))).
  rewrite Hlast. eexists. split; [done|].
  cbn [requests_sent app]. by rewrite seq_S, fmap_app.
Qed.

(** C2: when a request fails after any number of non-empty pages, the
    fetch issues no further request and returns the empty list, whatever
    it had accumulated. *)
Theorem fetch_issues_failure (pages : list (list json)) (message : string)
    (fuel : nat) :
  Forall (λ p, p ≠ []) pages →
  (∀ i p, pages !! i = Some p → requests_get (req (S i)) = Page p) →
  requests_get (req (S (length pages))) = Failed message →
  length pages < fuel →
  ∃ log,
    fetch_issues requests_get fuel self start_date end_date = Some ([], log) ∧
    requests_sent log = req <$> seq 1 (S (length pages)).
Proof.
  intros Hne Hget Hlast Hfuel.
  replace fuel with (length pages + S (fuel - S (length pages))) by lia.
  unfold fetch_issues.
  change (initial_params start_date end_date) with (params_at 1).
  destruct (fetch_loop_pages pages 1 (S (fuel - S (length pages))) []
              (mk_log [] []) Hne Hget) as [out ->].
  cbn [fetch_loop].
  change (mk_request (issues_url self) (private_token self)
            (params_at (1 + length pages)))
    with (req (S (length pages))).
  rewrite Hlast. eexists. split; [done|].
  cbn [requests_sent app]. by rewrite seq_S, fmap_app.
Qed.

End FetchProofs.

Lemma fetch_issues_until_empty_page_witness :
  let pages := [[Examples.issue_full; Examples.issue_bare]; [Examples.issue_full]] in
  let req := page_request Examples.gitlab None None in
  Forall (λ p, p ≠ []) pages ∧
  (∀ i p, pages !! i = Some p → Examples.server (req (S i)) = Page p) ∧
  Examples.server (req 3) = Page [] ∧
  2 < 5 ∧
  ∃ log,
    fetch_issues Examples.server 5 Examples.gitlab None None
      = Some (concat pages, log) ∧
    requests_sent log = req <$> [1; 2; 3].
Proof.
  intros pages req.
  assert (H1 : Forall (λ p : list json, p ≠ []) pages)
    by (repeat constructor; discriminate).
  assert (H2 : ∀ i p, pages !! i = Some p → Examples.server (req (S i)) = Page p).
  { intros [|[|i]] p; simpl; intros [= <-]; reflexivity. }
  assert (H3 : Examples.server (req 3) = Page []) by reflexivity.
  assert (H4 : 2 < 5) by lia.
  repeat split; try assumption.
  exact (fetch_issues_until_empty_page Examples.server Examples.gitlab None None
           pages 5 H1 H2 H3 H4).
Defined.

Lemma fetch_issues_failure_witness :
  let pages := [[Examples.issue_full; Examples.issue_bare]] in
  let req := page_request Examples.gitlab None None in
  Forall (λ p, p ≠ []) pages ∧
  (∀ i p, pages !! i = Some p → Examples.server_down (req (S i)) = Page p) ∧
  Examples.server_down (req 2) = Failed "503 Server Error" ∧
  1 < 4 ∧
  ∃ log,
    fetch_issues Examples.server_down 4 Examples.gitlab None None = Some ([], log) ∧
    requests_sent log = req <$> [1; 2].
Proof.
  intros pages req.
  assert (H1 : Forall (λ p : list json, p ≠ []) pages)
    by (repeat constructor; discriminate).
  assert (H2 : ∀ i p, pages !! i = Some p →
                      Examples.server_down (req (S i)) = Page p).
  { intros [|i] p; simpl; intros [= <-]; reflexivity. }
  assert (H3 : Examples.server_down (req 2) = Failed "503 Server Error")
    by reflexivity.
  assert (H4 : 1 < 4) by lia.
  repeat split; try assumption.
  exact (fetch_issues_failure Examples.server_down Examples.gitlab None None
           pages "503 Server Error" 4 H1 H2 H3 H4).
Defined.

(** ** Dicts *)

Lemma dict_lookup_empty {A : Type} (key : string) :
  (∅ : dict A) !! key = None.
Proof. change ((∅ : gmap string A) !! key = None). apply lookup_empty. Qed.

Lemma dict_lookup_insert_eq {A : Type} (d : dict A) (key : string) (v : A) :
  <[key := v]> d !! key = Some v.
Proof.
  change (<[key := v]> (dict_items d) !! key = Some v). apply lookup_insert_eq.
Qed.

Lemma dict_lookup_insert_ne {A : Type} (d : dict A) (k k' : string) (v : A) :
  k ≠ k' → <[k := v]> d !! k' = d !! k'.
Proof.
  intros Hne. change (<[k := v]> (dict_items d) !! k' = dict_items d !! k').
  by apply lookup_insert_ne.
Qed.

(** ** Reading and writing decimal digits *)

Lemma digit_of_char (a : ascii) (d : Z) :
  digit_of a = Some d → (0 ≤ d ≤ 9)%Z ∧ a = digit_char d.
Proof.
  destruct a as [[] [] [] [] [] [] [] []]; intros H; vm_compute in H;
    try discriminate H; injection H as <-; (split; [lia|reflexivity]).
Qed.

Lemma digits_S (n : nat) (acc : Z) (s : string) (v : Z) (r : string) :
  digits (S n) acc s = Some (v, r) →
  ∃ a d s', s = String a s' ∧ digit_of a = Some d
            ∧ digits n (10 * acc + d) s' = Some (v, r).
Proof.
  destruct s as [|a s']; [done|]. cbn [digits].
  destruct (digit_of a) as [d|] eqn:Hd; [|done]. intros H.
  by exists a, d, s'.
Qed.

Lemma pad_two_digits_table :
  forallb (λ v, String.eqb (pad 2 v) (two_digits v)) (seqZ 0 100) = true.
Proof. vm_compute. reflexivity. Qed.

Lemma pad_two_digits (v : Z) :
  (0 ≤ v < 100)%Z → pad 2 v = two_digits v.
Proof.
  intros Hv. apply String.eqb_eq.
  apply (proj1 (forallb_forall _ _) pad_two_digits_table).
  apply list_elem_of_In, elem_of_seqZ. lia.
Qed.

Ltac digit_cases d :=
  let H := fresh in
  assert (H : (d = 0 ∨ d = 1 ∨ d = 2 ∨ d = 3 ∨ d = 4 ∨ d = 5 ∨ d = 6 ∨ d = 7
               ∨ d = 8 ∨ d = 9)%Z) by lia;
  destruct H as [->|[->|[->|[->|[->|[->|[->|[->|[->| ->]]]]]]]]].

Lemma string_of_uint_digit (d : Z) (l : Decimal.uint) :
  (0 ≤ d ≤ 9)%Z →
  NilEmpty.string_of_uint (uint_digit d l)
  = String (digit_char d) (NilEmpty.string_of_uint l)
  ∧ NilZero.string_of_uint (uint_digit d l)
    = NilEmpty.string_of_uint (uint_digit d l).
Proof. intros Hd. digit_cases d; split; reflexivity. Qed.

Lemma of_uint_acc_digit (d : Z) (l : Decimal.uint) (acc : positive) :
  (0 ≤ d ≤ 9)%Z →
  Pos.of_uint_acc (uint_digit d l) acc
  = Pos.of_uint_acc l (Z.to_pos (d + 10 * Z.pos acc)).
Proof. intros Hd. digit_cases d; reflexivity. Qed.

Lemma of_uint_digit (d : Z) (l : Decimal.uint) :
  (1 ≤ d ≤ 9)%Z →
  Pos.of_uint (uint_digit d l) = N.pos (Pos.of_uint_acc l (Z.to_pos d))
  ∧ Decimal.unorm (uint_digit d l) = uint_digit d l.
Proof. intros Hd. digit_cases d; (lia || (split; reflexivity)). Qed.

(** A number of four digits, the first not 0, is written as those
    digits. *)
Lemma str_of_four_digits (d1 d2 d3 d4 : Z) :
  (1 ≤ d1 ≤ 9)%Z → (0 ≤ d2 ≤ 9)%Z → (0 ≤ d3 ≤ 9)%Z → (0 ≤ d4 ≤ 9)%Z →
  str_of_Z (10 * (10 * (10 * (10 * 0 + d1) + d2) + d3) + d4)
  = String (digit_char d1) (String (digit_char d2)
      (String (digit_char d3) (String (digit_char d4) ""))).
Proof.
  intros H1 H2 H3 H4.
  set (u := uint_digit d1 (uint_digit d2 (uint_digit d3
              (uint_digit d4 Decimal.Nil)))).
  set (p1 := Z.to_pos d1).
  set (p2 := Z.to_pos (d2 + 10 * Z.pos p1)).
  set (p3 := Z.to_pos (d3 + 10 * Z.pos p2)).
  set (p4 := Z.to_pos (d4 + 10 * Z.pos p3)).
  assert (E1 : Z.pos p1 = d1) by (unfold p1; lia).
  assert (E2 : Z.pos p2 = (d2 + 10 * d1)%Z) by (unfold p2; lia).
  assert (E3 : Z.pos p3 = (d3 + 10 * (d2 + 10 * d1))%Z) by (unfold p3; lia).
  assert (E4 : Z.pos p4 = (d4 + 10 * (d3 + 10 * (d2 + 10 * d1)))%Z)
    by (unfold p4; lia).
  assert (Hu : Pos.to_uint p4 = u).
  { pose proof (DecimalPos.Unsigned.to_of u) as Hto.
    destruct (of_uint_digit d1 (uint_digit d2 (uint_digit d3
                (uint_digit d4 Decimal.Nil))) H1) as [Hof Hnorm].
    fold u in Hof, Hnorm. rewrite Hnorm, Hof in Hto.
    rewrite !of_uint_acc_digit in Hto by done. exact Hto. }
  replace (10 * (10 * (10 * (10 * 0 + d1) + d2) + d3) + d4)%Z
    with (Z.pos p4) by lia.
  unfold str_of_Z. cbn [Z.to_int NilZero.string_of_int]. rewrite Hu.
  unfold u.
  rewrite (proj2 (string_of_uint_digit d1 _ ltac:(lia))).
  rewrite (proj1 (string_of_uint_digit d1 _ ltac:(lia))).
  rewrite (proj1 (string_of_uint_digit d2 _ H2)).
  rewrite (proj1 (string_of_uint_digit d3 _ H3)).
  by rewrite (proj1 (string_of_uint_digit d4 _ H4)).
Qed.

Lemma str_four_digits (v : Z) :
  (1000 ≤ v < 10000)%Z → str_of_Z v = four_digits v.
Proof.
  intros Hv. unfold four_digits.
  rewrite <- str_of_four_digits by (Z.to_euclidean_division_equations; lia).
  f_equal. Z.to_euclidean_division_equations; lia.
Qed.

(** From the year 1000 on a year has its four digits without padding. *)
Lemma pad_four_year (v : Z) :
  (1000 ≤ v < 10000)%Z → pad 4 v = str_of_Z v.
Proof. intros Hv. unfold pad. by rewrite str_four_digits. Qed.

(** Four digits read as a number, from 1000 on, are that number as it is
    written. *)
Lemma digits_4 (s : string) (v : Z) (r : string) :
  digits 4 0 s = Some (v, r) → (1000 ≤ v)%Z →
  (v < 10000)%Z ∧ s = str_of_Z v ++ r.
Proof.
  intros H Hv.
  apply digits_S in H as (a1 & d1 & s1 & -> & [H1 ->]%digit_of_char & H).
  apply digits_S in H as (a2 & d2 & s2 & -> & [H2 ->]%digit_of_char & H).
  apply digits_S in H as (a3 & d3 & s3 & -> & [H3 ->]%digit_of_char & H).
  apply digits_S in H as (a4 & d4 & s4 & -> & [H4 ->]%digit_of_char & H).
  cbn [digits] in H. injection H as <- <-.
  split; [lia|]. by rewrite str_of_four_digits by lia.
Qed.

Lemma digits_2 (s : string) (v : Z) (r : string) :
  digits 2 0 s = Some (v, r) →
  (0 ≤ v < 100)%Z ∧ s = pad 2 v ++ r.
Proof.
  intros H.
  apply digits_S in H as (a1 & d1 & s1 & -> & [H1 ->]%digit_of_char & H).
  apply digits_S in H as (a2 & d2 & s2 & -> & [H2 ->]%digit_of_char & H).
  cbn [digits] in H. injection H as <- <-.
  split; [lia|]. rewrite pad_two_digits by lia. unfold two_digits.
  replace ((10 * (10 * 0 + d1) + d2) / 10)%Z
    with d1 by (Z.to_euclidean_division_equations; lia).
  replace ((10 * (10 * 0 + d1) + d2) mod 10)%Z
    with d2 by (Z.to_euclidean_division_equations; lia).
  reflexivity.
Qed.

Lemma expect_Some (c : ascii) (s r : string) :
  expect c s = Some r → s = String c r.
Proof.
  destruct s as [|a s']; [done|]. cbn [expect].
  destruct (Ascii.eqb_spec a c) as [->|]; [|done]. by intros [= ->].
Qed.

Lemma str_four_length (v : Z) :
  (1000 ≤ v < 10000)%Z →
  ∃ a b c d, str_of_Z v = String a (String b (String c (String d ""))).
Proof. intros Hv. rewrite str_four_digits by done. by eexists _, _, _, _. Qed.

Lemma pad_two_length (v : Z) :
  (0 ≤ v < 100)%Z → ∃ a b, pad 2 v = String a (String b "").
Proof. intros Hv. rewrite pad_two_digits by done. by eexists _, _. Qed.

(** An ISO-8601 timestamp of a year from 1000 on is read as written: its
    first ten characters are the date read, the eight after the [T] the
    time read. *)
Lemma iso_parse_fields (text : string) (dt : datetime) :
  iso_parse text = Some dt → (1000 ≤ year dt)%Z →
  (year dt < 10000)%Z ∧
  substring 0 10 text
    = str_of_Z (year dt) ++ "-" ++ pad 2 (month dt) ++ "-" ++ pad 2 (day dt) ∧
  substring 10 1 text = "T" ∧
  substring 11 8 text
    = pad 2 (hour dt) ++ ":" ++ pad 2 (minute dt) ++ ":" ++ pad 2 (second dt).
Proof.
  unfold iso_parse. intros H.
  destruct (digits 4 0 text) as [[y s1]|] eqn:Hy; [|done].
  cbn [mbind option_bind] in H.
  destruct (expect "-" s1) as [s2|] eqn:E1; [|done].
  cbn [mbind option_bind] in H.
  destruct (digits 2 0 s2) as [[mo s3]|] eqn:Hmo; [|done].
  cbn [mbind option_bind] in H.
  destruct (expect "-" s3) as [s4|] eqn:E2; [|done].
  cbn [mbind option_bind] in H.
  destruct (digits 2 0 s4) as [[d s5]|] eqn:Hd; [|done].
  cbn [mbind option_bind] in H.
  destruct (expect "T" s5) as [s6|] eqn:E3; [|done].
  cbn [mbind option_bind] in H.
  destruct (digits 2 0 s6) as [[h s7]|] eqn:Hh; [|done].
  cbn [mbind option_bind] in H.
  destruct (expect ":" s7) as [s8|] eqn:E4; [|done].
  cbn [mbind option_bind] in H.
  destruct (digits 2 0 s8) as [[mi s9]|] eqn:Hmi; [|done].
  cbn [mbind option_bind] in H.
  destruct (expect ":" s9) as [s10|] eqn:E5; [|done].
  cbn [mbind option_bind] in H.
  destruct (digits 2 0 s10) as [[sec s11]|] eqn:Hsec; [|done].
  cbn [mbind option_bind] in H.
  destruct (match s11 with
            | String "." s' => fraction 100000 0 s'
            | _ => (0%Z, s11)
            end) as [us s12].
  destruct (parse_offset s12) as [off|]; [|done].
  cbn [mbind option_bind] in H.
  destruct ((1 <=? y)%Z && (1 <=? mo)%Z && (mo <=? 12)%Z && (1 <=? d)%Z
            && (d <=? days_in_month y mo)%Z && (h <? 24)%Z && (mi <? 60)%Z
            && (sec <? 60)%Z); [|done].
  injection H as <-. cbn [year month day hour minute second]. intros Hyear.
  apply digits_4 in Hy as [Hy ->]; [|done]. apply expect_Some in E1 as ->.
  apply digits_2 in Hmo as [Hmo ->]. apply expect_Some in E2 as ->.
  apply digits_2 in Hd as [Hd ->]. apply expect_Some in E3 as ->.
  apply digits_2 in Hh as [Hh ->]. apply expect_Some in E4 as ->.
  apply digits_2 in Hmi as [Hmi ->]. apply expect_Some in E5 as ->.
  apply digits_2 in Hsec as [Hsec ->].
  split; [done|].
  destruct (str_four_length y) as (y1 & y2 & y3 & y4 & ->); [lia|].
  destruct (pad_two_length mo Hmo) as (m1 & m2 & ->).
  destruct (pad_two_length d Hd) as (d1 & d2 & ->).
  destruct (pad_two_length h Hh) as (h1 & h2 & ->).
  destruct (pad_two_length mi Hmi) as (n1 & n2 & ->).
  destruct (pad_two_length sec Hsec) as (c1 & c2 & ->).
  repeat split; try reflexivity. by destruct s11.
Qed.

(** ** The record transformation *)

Lemma bind_Ok {A B : Type} (m : result A) (f : A → result B) (b : B) :
  (m ≫= f) = Ok b → ∃ a, m = Ok a ∧ f a = Ok b.
Proof. destruct m as [a|e]; [by exists a|done]. Qed.

Lemma bind_Raise {A B : Type} (m : result A) (f : A → result B) (e : exn) :
  m = Raise e → (m ≫= f) = Raise e.
Proof. by intros ->. Qed.

Lemma mapM_cons {A B : Type} (f : A → result B) (x : A) (l : list A) :
  mapM f (x :: l) = (y ← f x; k ← mapM f l; Ok (y :: k)).
Proof. reflexivity. Qed.

Lemma mapM_Ok {A B : Type} (f : A → result B) (l : list A) (k : list B) :
  mapM f l = Ok k ↔ Forall2 (λ x y, f x = Ok y) l k.
Proof.
  revert k. induction l as [|x l IH]; intros k.
  - split; [intros [= <-]; constructor|by inversion 1].
  - rewrite mapM_cons. split.
    + intros H. apply bind_Ok in H as (y & Hy & H).
      apply bind_Ok in H as (k' & Hk & [= <-]).
      constructor; [done|by apply IH].
    + inversion 1 as [|? y ? k' Hy Hk]; subst.
      apply IH in Hk. by rewrite Hy, Hk.
Qed.

Lemma mapM_succeeds {A B : Type} (f : A → result B) (l : list A) :
  succeeds (mapM f l) = forallb (λ x, succeeds (f x)) l.
Proof.
  induction l as [|x l IH]; [done|]. rewrite mapM_cons. cbn [forallb].
  destruct (f x); [|done]. cbn [mbind result_bind succeeds andb].
  rewrite <- IH. by destruct (mapM f l).
Qed.

Lemma all_str_Ok (items : list json) (ss : list string) :
  all_str items = Ok ss ↔ items = JStr <$> ss.
Proof.
  revert ss. induction items as [|v items IH]; intros ss.
  - split; [by intros [= <-]|by destruct ss].
  - split.
    + destruct v; try done. cbn [all_str]. intros H.
      apply bind_Ok in H as (ss' & Hss & [= <-]).
      apply IH in Hss as ->. done.
    + destruct ss as [|s' ss]; [done|]. intros [= -> ->].
      cbn [all_str]. by rewrite (proj2 (IH ss) eq_refl).
Qed.

(** ** The text of a cell *)

Lemma cut_all (s : string) :
  ∀ n, (Z.of_nat (len s) ≤ n)%Z → cut n s = s.
Proof.
  induction s as [|a s IH]; intros n Hn; [done|].
  cbn [cut len] in *. destruct (is_continuation a).
  - by rewrite IH.
  - rewrite Nat2Z.inj_succ in Hn. destruct (Z.leb_spec n 0); [lia|].
    by rewrite IH by lia.
Qed.

(** A text within the limits of a cell is kept as it is. *)
Lemma check_string_accepts (s : string) :
  accepts s = true → check_string s = Ok s.
Proof.
  unfold accepts, check_string. intros [Hlen Hill]%andb_prop.
  apply Z.leb_le in Hlen. rewrite cut_all by done.
  by destruct (has_illegal s).
Qed.

(** What a cell keeps of a text is its first 32767 characters at most, with
    none of the refused characters among them. *)
Lemma cut_len (s : string) :
  ∀ n, (0 ≤ n)%Z → (Z.of_nat (len (cut n s)) ≤ n)%Z.
Proof.
  induction s as [|a s IH]; intros n Hn; [cbn; lia|].
  cbn [cut]. destruct (is_continuation a) eqn:Ha.
  - cbn [len]. rewrite Ha. by apply IH.
  - destruct (Z.leb_spec n 0); [cbn; lia|].
    cbn [len]. rewrite Ha, Nat2Z.inj_succ. specialize (IH (n - 1)%Z). lia.
Qed.

Lemma check_string_Ok (s kept : string) :
  check_string s = Ok kept →
  kept = cut max_text s ∧ has_illegal kept = false
  ∧ (Z.of_nat (len kept) ≤ max_text)%Z.
Proof.
  unfold check_string.
  destruct (has_illegal (cut max_text s)) eqn:Hill; [done|].
  intros [= <-]. split; [done|]. split; [done|]. by apply cut_len.
Qed.

Lemma bind_value_text (s : string) :
  accepts s = true → bind_value (JStr s) = Ok (VStr s).
Proof. intros H. cbn [bind_value]. by rewrite check_string_accepts. Qed.

Lemma bind_value_accepted (v : json) (cv : cell_value) :
  accepted v = true → as_cell_value v = Ok cv → bind_value v = Ok cv.
Proof.
  destruct v as [| | |s| |]; try done.
  intros H [= <-]. by apply bind_value_text.
Qed.

Lemma mapM_bind_value_accepted (data : list json) (row : list cell_value) :
  forallb accepted data = true →
  mapM as_cell_value data = Ok row → mapM bind_value data = Ok row.
Proof.
  rewrite !mapM_Ok. intros Hdata H. induction H as [|v cv data row Hv H IH];
    [constructor|].
  cbn [forallb] in Hdata. apply andb_prop in Hdata as [Hacc Hdata].
  constructor; [by apply bind_value_accepted|by apply IH].
Qed.

Section ExportProofs.

Variable parse : string → option datetime.

#[local] Arguments format_time_seconds : simpl never.
#[local] Arguments strftime : simpl never.
#[local] Arguments join : simpl never.

Ltac bind_inv H :=
  repeat (let a := fresh "v" in
          let E := fresh "E" in
          apply bind_Ok in H as (a & E & H)).

(** The ten values are always ten. *)
Lemma issue_data_length (issue : json) (data : list json) :
  issue_data parse issue = Ok data → length data = 10.
Proof.
  unfold issue_data. intros H. bind_inv H. by injection H as <-.
Qed.

Lemma issue_data_obj (issue : json) (data : list json) :
  issue_data parse issue = Ok data → ∃ o, issue = JObj o.
Proof.
  unfold issue_data. intros H. apply bind_Ok in H as (a & E & _).
  destruct issue; try done. by eexists.
Qed.

(** What a successful transformation read from the record, and the ten
    values it made of it. *)
Lemma issue_data_Ok (o : dict json) (data : list json) :
  issue_data parse (JObj o) = Ok data ↔
  ∃ items names labels created dt ts estimate spent iid title author
    author_name issue_state,
    iter (default (JList []) (o !! "assignees")) = Ok items ∧
    Forall2 (λ a n, subscript a "name" = Ok (JStr n)) items names ∧
    join_values ", " (default (JList []) (o !! "labels")) = Ok labels ∧
    o !! "created_at" = Some (JStr created) ∧ parse created = Some dt ∧
    default (JObj ∅) (o !! "time_stats") = JObj ts ∧
    format_time_value (default (JInt 0) (ts !! "time_estimate")) = Ok estimate ∧
    format_time_value (default (JInt 0) (ts !! "total_time_spent")) = Ok spent ∧
    o !! "iid" = Some iid ∧ o !! "title" = Some title ∧
    o !! "author" = Some (JObj author) ∧ author !! "name" = Some author_name ∧
    o !! "state" = Some issue_state ∧
    data = [ iid; title; default (JStr "") (o !! "description"); author_name;
             issue_state; JStr (join ", " names); JStr labels;
             JStr (strftime "%Y-%m-%d %H:%M:%S" dt);
             JStr estimate; JStr spent ].
Proof.
  split.
  - unfold issue_data. intros H. bind_inv H. injection H as <-.
    cbn [dict_get] in *. simplify_eq.
    apply mapM_Ok in E1. apply all_str_Ok in E2 as ->.
    apply Forall2_fmap_r in E1.
    unfold subscript in E5, E12, E13, E15, E17.
    destruct (o !! "created_at") as [cr|] eqn:Hcr; [|done].
    destruct (o !! "iid") as [iid|] eqn:Hiid; [|done].
    destruct (o !! "title") as [title|] eqn:Htitle; [|done].
    destruct (o !! "author") as [author|] eqn:Hauthor; [|done].
    destruct (o !! "state") as [st|] eqn:Hst; [|done].
    simplify_eq.
    unfold parser_parse in E6. destruct v5 as [| | |s| |]; try done.
    destruct (parse s) as [dt|] eqn:Hdt; [|done]. simplify_eq.
    destruct v15 as [| | | | |author]; try done. unfold subscript in E16.
    destruct (author !! "name") as [nm|] eqn:Hnm; [|done]. simplify_eq.
    destruct (default (JObj ∅) (o !! "time_stats")) as [| | | | |ts] eqn:Hts;
      try done.
    cbn [dict_get] in *. simplify_eq.
    by eexists v0, v2, v4, s, v6, ts, v9, v11, _, _, author, _, _.
  - intros (items & names & labels & created & dt & ts & estimate & spent
            & iid & title & author & author_name & issue_state
            & Hit & Hnames & Hlabels & Hcr & Hdt & Hts & Hest & Hsp
            & Hiid & Htitle & Hauthor & Hname & Hstate & ->).
    unfold issue_data. cbn [dict_get mbind result_bind].
    rewrite Hit. cbn [mbind result_bind].
    rewrite (proj2 (mapM_Ok _ items (JStr <$> names))) by
      by apply Forall2_fmap_r.
    cbn [mbind result_bind].
    rewrite (proj2 (all_str_Ok _ names) eq_refl).
    cbn [mbind result_bind]. rewrite Hlabels.
    cbn [mbind result_bind subscript]. rewrite Hcr.
    cbn [mbind result_bind parser_parse]. rewrite Hdt.
    cbn [mbind result_bind]. rewrite Hts.
    cbn [mbind result_bind dict_get]. rewrite Hest.
    cbn [mbind result_bind]. rewrite Hsp.
    cbn [mbind result_bind]. rewrite Hiid, Htitle, Hauthor, Hstate.
    cbn [mbind result_bind subscript]. by rewrite Hname.
Qed.

Lemma name_unique (a : json) (n1 n2 : string) :
  subscript a "name" = Ok (JStr n1) → subscript a "name" = Ok (JStr n2) → n1 = n2.
Proof. congruence. Qed.



(** The description enters the ten values as the third of them and
    nowhere else. *)
Lemma issue_data_insert_description (o : dict json) (d : json) :
  issue_data parse (JObj (<["description" := d]> o))
  = (data ← issue_data parse (JObj o); Ok (<[2 := d]> data)).
Proof.
  unfold issue_data. cbn [dict_get subscript mbind result_bind].
  rewrite (dict_lookup_insert_ne o "description" "assignees") by done.
  rewrite (dict_lookup_insert_ne o "description" "labels") by done.
  rewrite (dict_lookup_insert_ne o "description" "created_at") by done.
  rewrite (dict_lookup_insert_ne o "description" "time_stats") by done.
  rewrite (dict_lookup_insert_ne o "description" "iid") by done.
  rewrite (dict_lookup_insert_ne o "description" "title") by done.
  rewrite (dict_lookup_insert_ne o "description" "author") by done.
  rewrite (dict_lookup_insert_ne o "description" "state") by done.
  rewrite dict_lookup_insert_eq.
  repeat match goal with
         | |- context [mbind _ ?m] =>
             lazymatch m with
             | mbind _ _ => fail
             | _ => destruct m; cbn [mbind result_bind]; try reflexivity
             end
         end.
Qed.

Lemma named_list_names (l : list json) :
  forallb is_named l = true →
  ∃ names, Forall2 (λ a n, subscript a "name" = Ok (JStr n)) l names.
Proof.
  induction l as [|a l IH]; [by exists []|].
  cbn [forallb]. intros [Ha Hl]%andb_prop.
  destruct (IH Hl) as [names Hnames].
  destruct a as [| | | | |f]; try done. cbn [is_named] in Ha.
  destruct (f !! "name") as [[| | |n| |]|] eqn:Hn; try done.
  exists (n :: names). constructor; [|done].
  cbn [subscript]. by rewrite Hn.
Qed.

Lemma text_list_join (sep : string) (l : list json) :
  forallb is_text l = true → ∃ text, join_values sep (JList l) = Ok text.
Proof.
  intros Hl. assert (∃ ss, l = JStr <$> ss) as [ss ->].
  { induction l as [|a l IH]; [by exists []|].
    cbn [forallb] in Hl. apply andb_prop in Hl as [Ha Hl].
    destruct (IH Hl) as [ss ->]. destruct a; try done.
    by eexists (_ :: ss). }
  exists (join sep ss). unfold join_values. cbn [iter mbind result_bind].
  by rewrite (proj2 (all_str_Ok _ ss) eq_refl).
Qed.

Lemma number_format (v : json) :
  is_number v = true → ∃ text, format_time_value v = Ok text.
Proof. destruct v; try done. by eexists. Qed.

(** A well-formed record is transformed, into ten scalar values. *)
Lemma well_formed_transformed_row (issue : json) :
  well_formed parse issue = true → ∃ row, transformed_row parse issue = Ok row.
Proof.
  destruct issue as [| | | | |o]; try done. unfold well_formed.
  rewrite !andb_true_iff.
  intros [[[[[[[[Hiid Htitle] Hdesc] Hauthor] Hstate] Hassign] Hlabels] Hcr] Hts].
  destruct (o !! "iid") as [[| |iid| | |]|] eqn:Eiid; try done.
  destruct (o !! "title") as [[| | |title| |]|] eqn:Etitle; try done.
  destruct (o !! "author") as [[| | | | |author]|] eqn:Eauthor; try done.
  cbn [from_option is_named] in Hauthor.
  destruct (author !! "name") as [[| | |author_name| |]|] eqn:Ename; try done.
  destruct (o !! "state") as [[| | |st| |]|] eqn:Estate; try done.
  destruct (o !! "created_at") as [[| | |created| |]|] eqn:Ecr; try done.
  cbn [from_option is_timestamp] in Hcr.
  destruct (parse created) as [dt|] eqn:Edt; try done.
  assert (∃ items names,
            iter (default (JList []) (o !! "assignees")) = Ok items ∧
            Forall2 (λ a n, subscript a "name" = Ok (JStr n)) items names)
    as (items & names & Hit & Hnames).
  { destruct (o !! "assignees") as [[| | | |l|]|]; try done.
    - destruct (named_list_names l Hassign) as [names ?]. by exists l, names.
    - exists [], []. by split; [|constructor]. }
  assert (∃ labels,
            join_values ", " (default (JList []) (o !! "labels")) = Ok labels)
    as [labels Hl].
  { destruct (o !! "labels") as [[| | | |l|]|]; try done.
    - by apply text_list_join.
    - by exists "". }
  assert (∃ ts estimate spent,
            default (JObj ∅) (o !! "time_stats") = JObj ts ∧
            format_time_value (default (JInt 0) (ts !! "time_estimate"))
              = Ok estimate ∧
            format_time_value (default (JInt 0) (ts !! "total_time_spent"))
              = Ok spent)
    as (ts & estimate & spent & Hts' & Hest & Hsp).
  { destruct (o !! "time_stats") as [[| | | | |ts]|]; try done.
    - cbn [from_option is_time_stats] in Hts.
      apply andb_prop in Hts as [H1 H2]. exists ts.
      destruct (ts !! "time_estimate") as [e|];
        destruct (ts !! "total_time_spent") as [p|]; cbn in H1, H2 |- *;
        try destruct (number_format e H1) as [? ->];
        try destruct (number_format p H2) as [? ->]; by eexists _, _.
    - exists ∅. rewrite !dict_lookup_empty. by eexists _, _. }
  assert (Hd : issue_data parse (JObj o)
               = Ok [ JInt iid; JStr title;
                      default (JStr "") (o !! "description");
                      JStr author_name; JStr st; JStr (join ", " names);
                      JStr labels; JStr (strftime "%Y-%m-%d %H:%M:%S" dt);
                      JStr estimate; JStr spent ]).
  { apply issue_data_Ok.
    by eexists items, names, labels, created, dt, ts, estimate, spent,
      _, _, _, _, _. }
  unfold transformed_row. rewrite Hd.
  destruct (o !! "description") as [[| | |desc| |]|]; try done;
    by eexists.
Qed.

(** A well-formed record whose texts a cell takes as they are has its
    Report Row, and the row holds the values as the transformation made
    them. *)
Lemma storable_report_row (issue : json) :
  well_formed parse issue = true → storable parse issue = true →
  ∃ row, report_row parse issue = Ok row ∧ transformed_row parse issue = Ok row.
Proof.
  intros [row Hrow]%well_formed_transformed_row. revert Hrow.
  unfold storable, report_row, transformed_row.
  destruct (issue_data parse issue) as [data|]; [|done].
  cbn [mbind result_bind]. intros Hrow Hst. exists row.
  split; [by apply mapM_bind_value_accepted|done].
Qed.

Lemma write_issues_raises (issues : list json) :
  ∀ ws row,
    Exists (λ issue, succeeds (issue_data parse issue) = false) issues →
    succeeds (write_issues parse ws row issues) = false.
Proof.
  induction issues as [|issue issues IH]; intros ws row; [by inversion 1|].
  intros H. cbn [write_issues].
  destruct (issue_data parse issue) as [data|e] eqn:Hd; [|done].
  cbn [mbind result_bind].
  destruct (write_values ws row 1 data) as [ws'|e]; [|done].
  cbn [mbind result_bind]. apply IH.
  inversion H as [? ? Hh|? ? Ht]; simplify_eq; [by rewrite Hd in Hh|done].
Qed.

(** C5: a record without its number, title, author, author name, state or
    created timestamp, or with a timestamp that does not parse, has no
    Report Row: the transformation raises, and so does the export of any
    sequence of records that holds it, before anything is saved. The
    exception is the one of the failing access ([KeyError], or
    [ParserError] for the timestamp); the program has no error class of
    its own. *)
Theorem malformed_record_raises (o : dict json) :
  lacks_required parse o →
  (∃ e, issue_data parse (JObj o) = Raise e) ∧
  (∀ now issues filename,
      JObj o ∈ issues →
      ∃ e, export_to_excel parse now issues filename = Raise e).
Proof.
  intros Hlack.
  assert (Hfail : succeeds (issue_data parse (JObj o)) = false).
  { destruct (issue_data parse (JObj o)) as [data|e] eqn:Hd; [|done].
    exfalso. apply issue_data_Ok in Hd
      as (items & names & labels & created & dt & ts & estimate & spent
          & iid & title & author & author_name & issue_state
          & Hit & Hnames & Hlabels & Hcr & Hdt & Hts & Hest & Hsp
          & Hiid & Htitle & Hauthor & Hname & Hstate & ->).
    destruct Hlack as [H|[H|[H|[(a & H & Ha)|[H|[H|(s & H & Hs)]]]]]];
      congruence. }
  split.
  - destruct (issue_data parse (JObj o)) as [data|e]; [done|by exists e].
  - intros now issues filename Hin. unfold export_to_excel.
    destruct (write_headers _ 1 headers) as [ws|e]; [|by exists e].
    cbn [mbind result_bind].
    pose proof (write_issues_raises issues ws 2) as Hraise.
    destruct (write_issues parse ws 2 issues) as [ws'|e]; [|by exists e].
    exfalso. cut (true = false); [done|]. apply Hraise.
    apply Exists_exists. by exists (JObj o).
Qed.

(** C10: a record without a description has the empty text as the third
    of its ten values, and in the description column of its Report Row; a
    well-formed record without a description is transformed, with the
    empty text third; and the transformation of a record succeeds
    without its description exactly when it succeeds with one, whatever
    the description is. The same holds of the Report Row for a
    description that a cell takes as it is. *)
Theorem missing_description (o : dict json) :
  o !! "description" = None →
  (∀ data, issue_data parse (JObj o) = Ok data → data !! 2 = Some (JStr "")) ∧
  (∀ row, report_row parse (JObj o) = Ok row → row !! 2 = Some (VStr "")) ∧
  (well_formed parse (JObj o) = true →
     ∃ data row,
       issue_data parse (JObj o) = Ok data ∧ data !! 2 = Some (JStr "") ∧
       transformed_row parse (JObj o) = Ok row ∧ row !! 2 = Some (VStr "")) ∧
  (∀ d,
     succeeds (issue_data parse (JObj (<["description" := d]> o)))
     = succeeds (issue_data parse (JObj o))) ∧
  (∀ text,
     succeeds (transformed_row parse (JObj (<["description" := JStr text]> o)))
     = succeeds (transformed_row parse (JObj o))) ∧
  (∀ text,
     accepts text = true →
     succeeds (report_row parse (JObj (<["description" := JStr text]> o)))
     = succeeds (report_row parse (JObj o))).
Proof.
  intros Hnone.
  assert (Hdata : ∀ data, issue_data parse (JObj o) = Ok data →
                          data !! 2 = Some (JStr "")).
  { intros data Hd. apply issue_data_Ok in Hd
      as (items & names & labels & created & dt & ts & estimate & spent
          & iid & title & author & author_name & issue_state
          & Hit & Hnames & Hlabels & Hcr & Hdt & Hts & Hest & Hsp
          & Hiid & Htitle & Hauthor & Hname & Hstate & ->).
    by rewrite Hnone. }
  assert (Hthird : ∀ (f : json → result cell_value) data row,
            f (JStr "") = Ok (VStr "") →
            issue_data parse (JObj o) = Ok data → mapM f data = Ok row →
            row !! 2 = Some (VStr "")).
  { intros f data row Hf Hd H. pose proof (Hdata data Hd) as H2.
    apply mapM_Ok in H.
    eapply Forall2_lookup_l in H as (cv & Hcv & Hv); [|exact H2].
    rewrite Hf in Hv. by injection Hv as <-. }
  split; [exact Hdata|]. split; [|split; [|split; [|split]]].
  - intros row H. unfold report_row in H.
    apply bind_Ok in H as (data & Hd & H).
    by apply (Hthird bind_value data row).
  - intros Hwf. destruct (well_formed_transformed_row _ Hwf) as [row H].
    pose proof H as H'. unfold transformed_row in H'.
    apply bind_Ok in H' as (data & Hd & H').
    exists data, row. split; [done|]. split; [by apply Hdata|].
    split; [done|]. by apply (Hthird as_cell_value data row).
  - intros d. rewrite issue_data_insert_description.
    by destruct (issue_data parse (JObj o)).
  - clear Hdata Hthird. intros text. unfold transformed_row.
    rewrite issue_data_insert_description.
    destruct (issue_data parse (JObj o)) as [data|e] eqn:Hd; [|done].
    apply issue_data_Ok in Hd
      as (items & names & labels & created & dt & ts & estimate & spent
          & iid & title & author & author_name & issue_state
          & Hit & Hnames & Hlabels & Hcr & Hdt & Hts & Hest & Hsp
          & Hiid & Htitle & Hauthor & Hname & Hstate & ->).
    rewrite Hnone. cbn [mbind result_bind insert list_insert default from_option id].
    by rewrite !mapM_succeeds.
  - clear Hdata Hthird. intros text Htext. unfold report_row.
    rewrite issue_data_insert_description.
    destruct (issue_data parse (JObj o)) as [data|e] eqn:Hd; [|done].
    apply issue_data_Ok in Hd
      as (items & names & labels & created & dt & ts & estimate & spent
          & iid & title & author & author_name & issue_state
          & Hit & Hnames & Hlabels & Hcr & Hdt & Hts & Hest & Hsp
          & Hiid & Htitle & Hauthor & Hname & Hstate & ->).
    rewrite Hnone. cbn [mbind result_bind insert list_insert default from_option id].
    rewrite !mapM_succeeds. cbn [forallb].
    by rewrite (bind_value_text text Htext), (bind_value_text "" eq_refl).
Qed.

End ExportProofs.

(** ** The worksheet *)

Local Open Scope nat_scope.

Lemma cell_at_set_cell (ws : worksheet) (row column : nat) (c : cell) :
  cell_at (set_cell ws row column c) row column = c.
Proof. unfold cell_at, set_cell. cbn [cells]. by rewrite lookup_insert_eq. Qed.

Lemma set_cell_twice (ws : worksheet) (row column : nat) (c1 c2 : cell) :
  set_cell (set_cell ws row column c1) row column c2 = set_cell ws row column c2.
Proof.
  unfold set_cell. cbn [title cells max_row max_column column_width].
  rewrite insert_insert_eq. f_equal; lia.
Qed.

(** Writing a value into a cell that is not there yet. *)
Lemma ws_cell_fresh (ws : worksheet) (row column : nat) (v : json) (cv : cell_value) :
  cells ws !! (row, column) = None →
  bind_value v = Ok cv →
  ws_cell ws row column v = Ok (set_cell ws row column (plain cv)).
Proof.
  intros Hnone Hv. unfold ws_cell, cell_at. rewrite Hnone.
  destruct v; try (by rewrite Hv). by injection Hv as <-.
Qed.

Lemma ws_cell_raises (ws : worksheet) (row column : nat) (v : json) (e : exn) :
  bind_value v = Raise e → ws_cell ws row column v = Raise e.
Proof.
  intros H. unfold ws_cell. destruct v; try (by rewrite H). discriminate H.
Qed.

(** What a run of cells leaves on the sheet. *)
Lemma put_row_spec (cs : list cell) :
  ∀ (ws : worksheet) (row column : nat),
    let ws' := put_row ws row column cs in
    title ws' = title ws ∧
    column_width ws' = column_width ws ∧
    max_row ws' = match cs with [] => max_row ws | _ => Nat.max (max_row ws) row end ∧
    max_column ws' =
      match cs with
      | [] => max_column ws
      | _ => Nat.max (max_column ws) (column + length cs - 1)
      end ∧
    ∀ r c, cells ws' !! (r, c) =
           if decide (r = row ∧ column ≤ c)
           then match cs !! (c - column) with
                | Some x => Some x
                | None => cells ws !! (r, c)
                end
           else cells ws !! (r, c).
Proof.
  induction cs as [|x cs IH]; intros ws row column ws'.
  - repeat split. intros r c. by case_decide.
  - subst ws'. cbn [put_row].
    destruct (IH (set_cell ws row column x) row (S column))
      as (Ht & Hw & Hr & Hc & Hcells).
    rewrite Ht, Hw, Hr, Hc. cbn [set_cell title column_width max_row max_column length].
    repeat split.
    + destruct cs; lia.
    + destruct cs; cbn [length]; lia.
    + intros r c. rewrite Hcells. cbn [set_cell cells].
      destruct (decide (r = row ∧ column ≤ c)) as [[-> Hle]|Hn].
      * destruct (decide (c = column)) as [->|Hne].
        -- rewrite decide_False by lia. rewrite Nat.sub_diag.
           cbn [lookup list_lookup]. by rewrite lookup_insert_eq.
        -- rewrite decide_True by lia.
           replace (c - column) with (S (c - S column)) by lia.
           cbn [lookup list_lookup].
           destruct (cs !! (c - S column)); [done|].
           rewrite lookup_insert_ne; [done|]. intros [= ?]. lia.
      * rewrite decide_False by lia.
        rewrite lookup_insert_ne; [done|]. intros [= ? ?]. lia.
Qed.

Lemma set_cell_keeps_fresh (ws : worksheet) (row column c : nat) (x : cell) :
  (∀ c', column ≤ c' → cells ws !! (row, c') = None) →
  S column ≤ c →
  cells (set_cell ws row column x) !! (row, c) = None.
Proof.
  intros Hfresh Hc. cbn [set_cell cells].
  rewrite lookup_insert_ne; [apply Hfresh; lia|]. intros [= ?]. lia.
Qed.

(** The header loop lays the styled header cells along row 1. *)
Lemma write_headers_put_row (hs : list string) :
  ∀ (ws : worksheet) (col : nat),
    Forall (λ h, accepts h = true) hs →
    (∀ c, col ≤ c → cells ws !! (1, c) = None) →
    write_headers ws col hs = Ok (put_row ws 1 col (header_cell <$> hs)).
Proof.
  induction hs as [|h hs IH]; intros ws col Hhs Hfresh; [done|].
  inversion Hhs as [|? ? Hh Hrest]; subst.
  cbn [write_headers fmap list_fmap put_row].
  rewrite (ws_cell_fresh ws 1 col (JStr h) (VStr h))
    by (auto using bind_value_text).
  cbn [mbind result_bind]. unfold set_font, set_fill.
  rewrite cell_at_set_cell, set_cell_twice, cell_at_set_cell, set_cell_twice.
  apply IH; [done|]. intros c Hc. by apply set_cell_keeps_fresh.
Qed.

(** The ten labels are texts a cell takes as they are. *)
Lemma headers_accepted : Forall (λ h, accepts h = true) headers.
Proof. repeat constructor. Qed.

(** The value loop lays the values of a record along its row. *)
Lemma write_values_put_row (data : list json) :
  ∀ (vals : list cell_value) (ws : worksheet) (row col : nat),
    mapM bind_value data = Ok vals →
    (∀ c, col ≤ c → cells ws !! (row, c) = None) →
    write_values ws row col data = Ok (put_row ws row col (plain <$> vals)).
Proof.
  induction data as [|v data IH]; intros vals ws row col Hvals Hfresh.
  - by injection Hvals as <-.
  - rewrite mapM_cons in Hvals. apply bind_Ok in Hvals as (cv & Hcv & Hvals).
    apply bind_Ok in Hvals as (vals' & Hvals' & [= <-]).
    cbn [write_values fmap list_fmap put_row].
    rewrite (ws_cell_fresh ws row col v cv) by auto.
    cbn [mbind result_bind].
    apply IH; [done|]. intros c Hc. by apply set_cell_keeps_fresh.
Qed.

Section SheetProofs.

Variable parse : string → option datetime.

Lemma report_row_length (issue : json) (row : list cell_value) :
  report_row parse issue = Ok row → length row = 10.
Proof.
  unfold report_row. intros H. apply bind_Ok in H as (data & Hd & H).
  apply issue_data_length in Hd. apply mapM_Ok in H.
  apply Forall2_length in H. lia.
Qed.

(** The data loop lays the Report Rows one below the other. *)
Lemma write_issues_spec (issues : list json) :
  ∀ (rows : list (list cell_value)) (ws : worksheet) (row : nat),
    Forall2 (λ issue r, report_row parse issue = Ok r) issues rows →
    (∀ r c, row ≤ r → cells ws !! (r, c) = None) →
    ∃ ws',
      write_issues parse ws row issues = Ok ws' ∧
      title ws' = title ws ∧
      column_width ws' = column_width ws ∧
      max_row ws' =
        match issues with
        | [] => max_row ws
        | _ => Nat.max (max_row ws) (row + length issues - 1)
        end ∧
      max_column ws' =
        match issues with
        | [] => max_column ws
        | _ => Nat.max (max_column ws) 10
        end ∧
      ∀ r c, cells ws' !! (r, c) =
             if decide (row ≤ r ∧ 1 ≤ c) then data_cell rows row r c
             else cells ws !! (r, c).
Proof.
  induction issues as [|issue issues IH]; intros rows ws row Hrows Hfresh.
  - inversion Hrows; subst. exists ws. repeat split.
    intros r c. case_decide as H; [|done]. unfold data_cell.
    rewrite lookup_nil. cbn. apply Hfresh. lia.
  - inversion Hrows as [|? vals ? rows' Hrow Hrest]; subst.
    pose proof (report_row_length _ _ Hrow) as Hlen.
    unfold report_row in Hrow. apply bind_Ok in Hrow as (data & Hd & Hvals).
    cbn [write_issues]. rewrite Hd. cbn [mbind result_bind].
    rewrite (write_values_put_row data vals) by auto.
    cbn [mbind result_bind].
    destruct (put_row_spec (plain <$> vals) ws row 1)
      as (Ht & Hw & Hr & Hc & Hcells).
    set (ws1 := put_row ws row 1 (plain <$> vals)) in *.
    destruct (IH rows' ws1 (S row) Hrest) as (ws' & Hok & Ht' & Hw' & Hr' & Hc' & Hcells').
    { intros r c Hr0. rewrite Hcells. rewrite decide_False by lia.
      apply Hfresh. lia. }
    assert (Hr2 : max_row ws1 = Nat.max (max_row ws) row)
      by (rewrite Hr; by destruct vals).
    assert (Hc2 : max_column ws1 = Nat.max (max_column ws) 10).
    { rewrite Hc, length_fmap, Hlen. by destruct vals. }
    exists ws'. split; [done|]. rewrite Ht', Hw', Hr', Hc', Ht, Hw, Hr2, Hc2.
    cbn [length]. repeat split.
    + destruct issues; cbn [length]; lia.
    + destruct issues; lia.
    + intros r c. rewrite Hcells', Hcells. unfold data_cell.
      destruct (decide (row ≤ r ∧ 1 ≤ c)) as [[H1 H2]|Hn].
      * destruct (decide (r = row)) as [->|Hne'].
        -- rewrite decide_False by lia. rewrite decide_True by done.
           rewrite Nat.sub_diag. cbn [lookup list_lookup mbind option_bind].
           rewrite list_lookup_fmap.
           destruct (vals !! (c - 1)); [done|]. cbn. apply Hfresh. lia.
        -- rewrite decide_True by lia.
           replace (r - row) with (S (r - S row)) by lia. done.
      * rewrite !decide_False by lia. done.
Qed.

Lemma fmap_seq_eq {A : Type} (f : nat → A) (l : list A) :
  ∀ a, (∀ j x, l !! j = Some x → f (a + j) = x) → f <$> seq a (length l) = l.
Proof.
  induction l as [|x l IH]; intros a Hf; [done|].
  cbn [length seq fmap list_fmap]. f_equal.
  - rewrite <- (Nat.add_0_r a). by apply Hf.
  - apply IH. intros j y Hj. rewrite Nat.add_succ_comm. by apply Hf.
Qed.

Lemma max_length_of_max_list (cs : list cell) :
  max_length_of cs = max_list ((λ c, len (str_of_value (value c))) <$> cs).
Proof.
  unfold max_length_of.
  cut (∀ acc, foldl (λ max_length c,
                       let n := len (str_of_value (value c)) in
                       if max_length <? n then n else max_length) acc cs
              = Nat.max acc (max_list ((λ c, len (str_of_value (value c))) <$> cs))).
  { intros H. by rewrite H. }
  induction cs as [|c cs IH]; intros acc; cbn [foldl fmap list_fmap].
  - cbn. lia.
  - rewrite IH. cbn [max_list_with id]. unfold id.
    destruct (Nat.ltb_spec acc (len (str_of_value (value c)))); lia.
Qed.

(** The width loop sets one width per column and touches nothing else. *)
Lemma adjust_columns_spec (g : nat → list cell) (n : nat) :
  ∀ (a : nat) (ws : worksheet),
    let ws' := foldl adjust_column ws ((λ c, (c, g c)) <$> seq a n) in
    title ws' = title ws ∧ cells ws' = cells ws ∧
    max_row ws' = max_row ws ∧ max_column ws' = max_column ws ∧
    ∀ c, column_width ws' !! c =
         if decide (a ≤ c < a + n)
         then Some (Nat.min (max_length_of (g c) + 2) 50)
         else column_width ws !! c.
Proof.
  induction n as [|n IH]; intros a ws ws'.
  - repeat split. intros c. by rewrite decide_False by lia.
  - subst ws'. cbn [seq fmap list_fmap foldl].
    destruct (IH (S a) (adjust_column ws (a, g a)))
      as (Ht & Hcs & Hr & Hc & Hw).
    rewrite Ht, Hcs, Hr, Hc. repeat split.
    intros c. rewrite Hw. cbn [adjust_column set_width column_width].
    destruct (decide (c = a)) as [->|Hne].
    + rewrite decide_False by lia. rewrite decide_True by lia.
      by rewrite lookup_insert_eq.
    + rewrite lookup_insert_ne by done.
      destruct (decide (S a ≤ c < S a + n)).
      * by rewrite decide_True by lia.
      * by rewrite decide_False by lia.
Qed.

(** The sheet handed to [wb.save] for records that have their rows: the
    width loop applied to a sheet of exactly the expected cells. *)
Lemma export_to_excel_sheet (now : datetime) (issues : list json)
    (rows : list (list cell_value)) (filename : option string) :
  Forall2 (λ issue r, report_row parse issue = Ok r) issues rows →
  ∃ name ws,
    export_to_excel parse now issues filename = Ok (name, adjust_widths ws) ∧
    title ws = "GitLab Issues" ∧
    column_width ws = ∅ ∧
    max_row ws = S (length issues) ∧
    max_column ws = 10 ∧
    ∀ r c, cells ws !! (r, c) = expected_cell rows r c.
Proof.
  intros Hrows. unfold export_to_excel.
  set (ws0 := new_sheet "GitLab Issues").
  rewrite (write_headers_put_row headers ws0 1)
    by (done || apply headers_accepted).
  cbn [mbind result_bind].
  destruct (put_row_spec (header_cell <$> headers) ws0 1 1)
    as (Ht & Hw & Hr & Hc & Hcells).
  set (ws1 := put_row ws0 1 1 (header_cell <$> headers)) in *.
  destruct (write_issues_spec issues rows ws1 2 Hrows)
    as (ws2 & Hok & Ht2 & Hw2 & Hr2 & Hc2 & Hcells2).
  { intros r c Hr0. rewrite Hcells. by rewrite decide_False by lia. }
  rewrite Hok. cbn [mbind result_bind].
  eexists _, ws2. split; [done|].
  rewrite Ht2, Hw2, Hr2, Hc2, Ht, Hw, Hr, Hc. repeat split.
  - destruct issues; cbn [length headers fmap list_fmap max_row ws0 new_sheet]; lia.
  - by destruct issues.
  - intros r c. rewrite Hcells2, Hcells. unfold expected_cell.
    destruct (decide (2 ≤ r ∧ 1 ≤ c)) as [H2|H2].
    + by rewrite decide_False by lia.
    + destruct (decide (r = 1 ∧ 1 ≤ c)) as [H1|H1]; [|done].
      rewrite list_lookup_fmap. by destruct (headers !! (c - 1)).
Qed.

Lemma adjust_widths_spec (ws : worksheet) :
  title (adjust_widths ws) = title ws ∧
  cells (adjust_widths ws) = cells ws ∧
  max_row (adjust_widths ws) = max_row ws ∧
  max_column (adjust_widths ws) = max_column ws ∧
  ∀ c, column_width (adjust_widths ws) !! c =
       if decide (1 ≤ c < 1 + max_column ws)
       then Some (Nat.min (max_length_of (ws_column ws c) + 2) 50)
       else column_width ws !! c.
Proof. apply (adjust_columns_spec (ws_column ws) (max_column ws) 1 ws). Qed.

Lemma storable_rows (issues : list json) :
  Forall (λ issue, well_formed parse issue = true
                   ∧ storable parse issue = true) issues →
  ∃ rows,
    Forall2 (λ issue r, report_row parse issue = Ok r) issues rows ∧
    Forall2 (λ issue r, transformed_row parse issue = Ok r) issues rows.
Proof.
  induction 1 as [|issue issues [Hwf Hst] _ (rows & IH1 & IH2)];
    [by exists []|].
  destruct (storable_report_row parse issue Hwf Hst) as (row & Hrow1 & Hrow2).
  exists (row :: rows). split; by constructor.
Qed.


(** C9: in the document produced, every one of the ten columns has the
    width L + 2 capped at 50, where L is the greatest textual length among
    its header label and its values in all rows, the textual length of a
    value being that of [str(value)]; no other column has a width set. *)
Theorem export_to_excel_widths (now : datetime) (issues : list json)
    (rows : list (list cell_value)) (filename : option string) :
  Forall2 (λ issue r, report_row parse issue = Ok r) issues rows →
  ∃ name ws,
    export_to_excel parse now issues filename = Ok (name, ws) ∧
    (∀ c header,
        headers !! c = Some header →
        column_width ws !! (S c)
        = Some (Nat.min (max_list (column_lengths header rows c) + 2) 50)) ∧
    (∀ c, ¬ (1 ≤ c ≤ 10) → column_width ws !! c = None).
Proof.
  intros Hrows.
  destruct (export_to_excel_sheet now issues rows filename Hrows)
    as (name & ws & Hok & Ht & Hempty & Hr & Hc & Hcells).
  destruct (adjust_widths_spec ws) as (_ & _ & _ & _ & Hw).
  pose proof (Forall2_length _ _ _ Hrows) as Hlen.
  exists name, (adjust_widths ws). split; [done|]. split.
  - intros c header Hh. rewrite Hw, Hc.
    assert (c < 10) by (apply lookup_lt_Some in Hh; exact Hh).
    rewrite decide_True by lia. do 2 f_equal.
    rewrite max_length_of_max_list. f_equal.
    assert (Hcol : ws_column ws (S c)
                   = header_cell header
                     :: ((λ row, plain (default VNone (row !! c))) <$> rows)).
    { unfold ws_column, cell_at. rewrite Hr, Hlen.
      replace (S (length rows))
        with (length (header_cell header
                        :: ((λ row, plain (default VNone (row !! c))) <$> rows)))
        by (cbn [length]; by rewrite length_fmap).
      apply fmap_seq_eq. intros [|j] x Hx.
      - injection Hx as <-. rewrite Hcells. unfold expected_cell.
        rewrite decide_True by lia. replace (S c - 1) with c by lia.
        by rewrite Hh.
      - change (((λ row, plain (default VNone (row !! c))) <$> rows) !! j
                = Some x) in Hx.
        rewrite list_lookup_fmap in Hx.
        rewrite Hcells. unfold expected_cell, data_cell.
        rewrite decide_False by lia. rewrite decide_True by lia.
        replace (1 + S j - 2) with j by lia. replace (S c - 1) with c by lia.
        destruct (rows !! j) as [vals|]; [|done]. injection Hx as <-.
        cbn [mbind option_bind]. by destruct (vals !! c). }
    rewrite Hcol. unfold column_lengths. cbn [fmap list_fmap]. f_equal.
    by rewrite <- list_fmap_compose.
  - intros c Hout. rewrite Hw, Hc. rewrite decide_False by lia.
    by rewrite Hempty.
Qed.

End SheetProofs.

(** ** The theorems at the sample data *)




Lemma malformed_record_raises_witness :
  let o := Examples.fields_untitled in
  lacks_required iso_parse o ∧
  (∃ e, issue_data iso_parse (JObj o) = Raise e) ∧
  (∀ now issues filename,
      JObj o ∈ issues →
      ∃ e, export_to_excel iso_parse now issues filename = Raise e).
Proof.
  intros o.
  assert (H : lacks_required iso_parse o) by (right; left; reflexivity).
  split; [exact H|].
  exact (malformed_record_raises iso_parse o H).
Defined.



Lemma export_to_excel_widths_witness :
  let issues := [Examples.issue_full; Examples.issue_bare] in
  let rows := [Examples.row_full; Examples.row_bare] in
  Forall2 (λ issue r, report_row iso_parse issue = Ok r) issues rows ∧
  ∃ name ws,
    export_to_excel iso_parse Examples.clock issues None = Ok (name, ws) ∧
    (∀ c header,
        headers !! c = Some header →
        column_width ws !! (S c)
        = Some (Nat.min (max_list (column_lengths header rows c) + 2) 50)) ∧
    (∀ c, ¬ (1 ≤ c ≤ 10) → column_width ws !! c = None).
Proof.
  intros issues rows.
  assert (H : Forall2 (λ issue r, report_row iso_parse issue = Ok r) issues rows)
    by (repeat (constructor; [vm_compute; reflexivity|]); constructor).
  split; [exact H|].
  exact (export_to_excel_widths iso_parse Examples.clock issues rows None H).
Defined.

Lemma missing_description_witness :
  let o := Examples.fields_bare in
  o !! "description" = None ∧
  (∀ data, issue_data iso_parse (JObj o) = Ok data → data !! 2 = Some (JStr "")) ∧
  (∀ row, report_row iso_parse (JObj o) = Ok row → row !! 2 = Some (VStr "")) ∧
  (well_formed iso_parse (JObj o) = true →
     ∃ data row,
       issue_data iso_parse (JObj o) = Ok data ∧ data !! 2 = Some (JStr "") ∧
       transformed_row iso_parse (JObj o) = Ok row ∧ row !! 2 = Some (VStr "")) ∧
  (∀ d,
     succeeds (issue_data iso_parse (JObj (<["description" := d]> o)))
     = succeeds (issue_data iso_parse (JObj o))) ∧
  (∀ text,
     succeeds (transformed_row iso_parse (JObj (<["description" := JStr text]> o)))
     = succeeds (transformed_row iso_parse (JObj o))) ∧
  (∀ text,
     accepts text = true →
     succeeds (report_row iso_parse (JObj (<["description" := JStr text]> o)))
     = succeeds (report_row iso_parse (JObj o))).
Proof.
  intros o.
  assert (H : o !! "description" = None) by (vm_compute; reflexivity).
  split; [exact H|].
  exact (missing_description iso_parse o H).
Defined.

(** ** Worked examples *)

Example format_time_seconds_estimate :
  format_time_seconds 5400 = "1h 30m 0s" ∧ format_time_seconds 0 = "0".
Proof. by vm_compute. Qed.

Example len_counts_code_points :
  len "Título del issue" = 16 ∧ String.length "Título del issue" = 17.
Proof. by vm_compute. Qed.

Example fetch_issues_sample :
  fst <$> fetch_issues Examples.server 10 Examples.gitlab None None
  = Some [Examples.issue_full; Examples.issue_bare; Examples.issue_full].
Proof. reflexivity. Qed.

Example fetch_issues_sample_refused :
  fetch_issues Examples.server_down 10 Examples.gitlab None None
  = Some ([], mk_log [page_request Examples.gitlab None None 1;
                      page_request Examples.gitlab None None 2]
                     ["Fetched 2 issues so far...";
                      "Error fetching issues: 503 Server Error"]).
Proof. reflexivity. Qed.

Example fetch_issues_short_of_fuel :
  fetch_issues Examples.server 2 Examples.gitlab None None = None.
Proof. reflexivity. Qed.

Example issue_untitled_raises :
  issue_data iso_parse Examples.issue_untitled = Raise (KeyError "title").
Proof. by vm_compute. Qed.

Example report_row_sample :
  report_row iso_parse Examples.issue_full = Ok Examples.row_full ∧
  report_row iso_parse Examples.issue_bare = Ok Examples.row_bare.
Proof. by vm_compute. Qed.

Example export_to_excel_sample :
  match export_to_excel iso_parse Examples.clock
          [Examples.issue_full; Examples.issue_bare] None with
  | Ok (name, ws) =>
      name = "gitlab_issues_20240301_093000.xlsx" ∧
      title ws = "GitLab Issues" ∧
      max_row ws = 3 ∧
      cell_at ws 1 1 = header_cell "ID del issue" ∧
      column_width ws !! 1 = Some 14 ∧
      column_width ws !! 2 = Some 18 ∧
      column_width ws !! 8 = Some 26
  | Raise _ => False
  end.
Proof. by vm_compute. Qed.

Example iter_dict_in_insertion_order :
  join_values ", " (JObj Samples.labels_ab) = Ok "a, b" ∧
  join_values ", " (JObj Samples.labels_ba) = Ok "b, a" ∧
  Samples.labels_ab !! "a" = Samples.labels_ba !! "a" ∧
  Samples.labels_ab !! "b" = Samples.labels_ba !! "b".
Proof. by vm_compute. Qed.

Example check_string_samples :
  check_string "Título del issue" = Ok "Título del issue" ∧
  check_string ("línea 1" ++ String "010" "línea 2")
  = Ok ("línea 1" ++ String "010" "línea 2") ∧
  check_string Samples.title_control = Raise IllegalCharacterError ∧
  cut 3 "añob" = "año" ∧
  cut 3 ("año" ++ Samples.title_control) = "año".
Proof. by vm_compute. Qed.

Example strftime_year_999 :
  strftime "%Y-%m-%d %H:%M:%S" Samples.early = "999-01-15 00:00:00" ∧
  isoformat Samples.early = "0999-01-15T00:00:00+00:00".
Proof. by vm_compute. Qed.

(** ** More on the paginated fetch *)

Section FetchMore.

Variable requests_get : request → response.
Variable self : exporter.
Variables start_date end_date : option datetime.

Local Abbreviation req := (page_request self start_date end_date).
Local Abbreviation params_at n :=
  (mk_params 100 n "all" (isoformat <$> start_date) (isoformat <$> end_date)).

(** Whatever the loop returns, it got there through a run of non-empty
    pages closed by an empty page or by a failure. *)
Lemma fetch_loop_returns (fuel : nat) :
  ∀ (k : nat) (acc : list json) (log log' : fetch_log) (issues : list json),
    fetch_loop requests_get fuel self (params_at k) acc log = Some (issues, log') →
    ∃ pages,
      Forall (λ p, p ≠ []) pages ∧
      (∀ i p, pages !! i = Some p → requests_get (req (k + i)) = Page p) ∧
      requests_sent log'
        = (requests_sent log ++ (req <$> seq k (S (length pages))))%list ∧
      ((requests_get (req (k + length pages)) = Page [] ∧
        issues = (acc ++ concat pages)%list ∧
        printed log'
          = (printed log ++ progress_lines (length acc) pages)%list)
       ∨ (∃ message,
            requests_get (req (k + length pages)) = Failed message ∧
            issues = [] ∧
            printed log'
              = (printed log ++ progress_lines (length acc) pages
                   ++ [error_line message])%list)).
Proof.
  induction fuel as [|fuel IH]; intros k acc log log' issues H; [done|].
  cbn [fetch_loop] in H.
  change (mk_request (issues_url self) (private_token self) (params_at k))
    with (req k) in H.
  destruct (requests_get (req k)) as [[|x p]|message] eqn:Hk.
  - injection H as <- <-. exists []. cbn [length concat seq fmap list_fmap
      progress_lines requests_sent printed]. rewrite Nat.add_0_r, !app_nil_r.
    split; [constructor|]. split; [by intros i p; rewrite lookup_nil|].
    split; [done|]. by left.
  - change (next_page (params_at k)) with (params_at (S k)) in H.
    apply IH in H as (pages & Hne & Hget & Hsent & Hend).
    exists ((x :: p) :: pages). split; [by constructor|]. split.
    { intros [|i] q Hq.
      - injection Hq as <-. by rewrite Nat.add_0_r.
      - rewrite <- Nat.add_succ_comm. by apply Hget. }
    cbn [length concat progress_lines requests_sent printed] in *.
    rewrite <- Nat.add_succ_comm. split.
    { rewrite Hsent, <- app_assoc. done. }
    rewrite length_app in Hend. cbn [length] in Hend.
    destruct Hend as [(He & -> & Hp)|(message & He & -> & Hp)]; [left|right].
    + split; [done|]. split; [by rewrite <- app_assoc|].
      rewrite Hp, <- app_assoc. done.
    + exists message. split; [done|]. split; [done|].
      rewrite Hp, <- !app_assoc. done.
  - injection H as <- <-. exists []. cbn [length concat seq fmap list_fmap
      progress_lines requests_sent printed]. rewrite Nat.add_0_r.
    split; [constructor|]. split; [by intros i p; rewrite lookup_nil|].
    split; [done|]. right. by exists message.
Qed.

(** X1: whenever [fetch_issues] returns, it has asked for the pages 1, 2,
    ... k in this order and for nothing else, every time with the same
    URL, token, page size 100, state filter and date bounds; the pages
    before the last were non-empty, and the last one was empty (and the
    result is all records of the pages before it, in order) or failed (and
    the result is the empty list). *)
Theorem fetch_issues_returns (fuel : nat) (issues : list json) (log : fetch_log) :
  fetch_issues requests_get fuel self start_date end_date = Some (issues, log) →
  ∃ pages,
    Forall (λ p, p ≠ []) pages ∧
    (∀ i p, pages !! i = Some p → requests_get (req (S i)) = Page p) ∧
    requests_sent log = req <$> seq 1 (S (length pages)) ∧
    ((requests_get (req (S (length pages))) = Page [] ∧ issues = concat pages)
     ∨ (∃ message,
          requests_get (req (S (length pages))) = Failed message ∧ issues = [])).
Proof.
  unfold fetch_issues. intros H.
  change (initial_params start_date end_date) with (params_at 1) in H.
  apply fetch_loop_returns in H as (pages & Hne & Hget & Hsent & Hend).
  exists pages. split; [done|]. split; [exact Hget|]. split; [exact Hsent|].
  destruct Hend as [(He & -> & _)|(message & He & -> & _)];
    [left|right; exists message]; done.
Qed.

(** X2: a non-empty result is a complete one: no request failed, and the
    result holds every record of every page up to the first empty page. *)
Theorem fetch_issues_nonempty_complete (fuel : nat) (issues : list json)
    (log : fetch_log) :
  fetch_issues requests_get fuel self start_date end_date = Some (issues, log) →
  issues ≠ [] →
  ∃ pages,
    issues = concat pages ∧
    Forall (λ p, p ≠ []) pages ∧
    (∀ i p, pages !! i = Some p → requests_get (req (S i)) = Page p) ∧
    requests_get (req (S (length pages))) = Page [] ∧
    ∀ r, r ∈ requests_sent log → ∀ message, requests_get r ≠ Failed message.
Proof.
  unfold fetch_issues. intros H Hne.
  change (initial_params start_date end_date) with (params_at 1) in H.
  apply fetch_loop_returns in H as (pages & Hp & Hget & Hsent & Hend).
  destruct Hend as [(He & -> & _)|(message & He & -> & _)]; [|done].
  change (1 + length pages) with (S (length pages)) in He.
  exists pages. repeat split; try done.
  intros r Hr message Hf. cbn [requests_sent app] in Hsent.
  rewrite Hsent in Hr. apply list_elem_of_fmap in Hr as (n & -> & Hn).
  apply elem_of_seq in Hn.
  destruct (decide (n = S (length pages))) as [->|Hneq]; [congruence|].
  destruct (lookup_lt_is_Some_2 pages (n - 1)) as [p Hlk]; [lia|].
  apply Hget in Hlk. replace (1 + (n - 1)) with n in Hlk by lia. congruence.
Qed.

(** X3: the progress lines of a fetch that ends at an empty page are one
    per non-empty page, each with the number of records held so far; the
    loop prints nothing else. *)
Theorem fetch_issues_progress (fuel : nat) (issues : list json) (log : fetch_log) :
  fetch_issues requests_get fuel self start_date end_date = Some (issues, log) →
  issues ≠ [] →
  ∃ pages,
    (∀ i p, pages !! i = Some p → requests_get (req (S i)) = Page p) ∧
    issues = concat pages ∧
    printed log = progress_lines 0 pages ∧
    length (printed log) = length pages.
Proof.
  unfold fetch_issues. intros H Hne.
  change (initial_params start_date end_date) with (params_at 1) in H.
  apply fetch_loop_returns in H as (pages & Hp & Hget & Hsent & Hend).
  destruct Hend as [(He & -> & Hpr)|(message & He & -> & _)]; [|done].
  cbn [printed app length] in Hpr.
  exists pages. split; [exact Hget|]. split; [done|]. split; [exact Hpr|].
  rewrite Hpr. clear. generalize 0. induction pages as [|p pages IH]; intros n.
  - done.
  - cbn [progress_lines length]. by rewrite IH.
Qed.

Lemma fetch_loop_endless (fuel : nat) :
  ∀ (k : nat) (acc : list json) (log : fetch_log),
    (∀ n, k ≤ n → ∃ x p, requests_get (req n) = Page (x :: p)) →
    fetch_loop requests_get fuel self (params_at k) acc log = None.
Proof.
  induction fuel as [|fuel IH]; intros k acc log Hall; [done|].
  cbn [fetch_loop].
  change (mk_request (issues_url self) (private_token self) (params_at k))
    with (req k).
  destruct (Hall k) as (x & p & ->); [lia|].
  change (next_page (params_at k)) with (params_at (S k)).
  apply IH. intros n Hn. apply Hall. lia.
Qed.

(** X4: the loop has no bound of its own: against a server that answers
    every page with records, [fetch_issues] never returns. *)
Theorem fetch_issues_endless :
  (∀ n, 1 ≤ n → ∃ x p, requests_get (req n) = Page (x :: p)) →
  ∀ fuel, fetch_issues requests_get fuel self start_date end_date = None.
Proof.
  intros Hall fuel. unfold fetch_issues.
  change (initial_params start_date end_date) with (params_at 1).
  by apply fetch_loop_endless.
Qed.

End FetchMore.

(** ** More on the duration formatter *)

Lemma string_app_cons (a : ascii) (s t : string) :
  String a s ++ t = String a (s ++ t).
Proof. reflexivity. Qed.

(** Two texts that agree up to and after the first occurrence of a
    character agree part by part. *)
Lemma string_app_split (c : ascii) (a a' x x' : string) :
  contains c a = false → contains c a' = false →
  a ++ String c x = a' ++ String c x' → a = a' ∧ x = x'.
Proof.
  revert a'. induction a as [|b a IH]; intros [|b' a'] Ha Ha' H.
  - by injection H as <-.
  - rewrite string_app_cons in H. injection H as <- _.
    cbn [contains] in Ha'. by rewrite Ascii.eqb_refl in Ha'.
  - rewrite string_app_cons in H. injection H as -> _.
    cbn [contains] in Ha. by rewrite Ascii.eqb_refl in Ha.
  - rewrite !string_app_cons in H. injection H as <- H.
    cbn [contains] in Ha, Ha'.
    apply orb_false_elim in Ha as [_ Ha]. apply orb_false_elim in Ha' as [_ Ha'].
    destruct (IH a' Ha Ha' H) as [-> ->]. done.
Qed.

(** [str] of an int reads back as the int. *)
Lemma str_of_Z_inj (z1 z2 : Z) : str_of_Z z1 = str_of_Z z2 → z1 = z2.
Proof.
  assert (Hback : ∀ z, NilZero.int_of_string (str_of_Z z) = Some (Z.to_int z)).
  { intros z. unfold str_of_Z. apply NilZero.isi.
    - destruct z as [|p|p]; try done. cbn. intros [= Hp].
      by apply (DecimalPos.Unsigned.to_uint_nonnil p).
    - destruct z as [|p|p]; try done. cbn. intros [= Hp].
      by apply (DecimalPos.Unsigned.to_uint_nonnil p). }
  intros H. apply DecimalZ.to_int_inj.
  pose proof (Hback z1) as H1. rewrite H, Hback in H1. by injection H1.
Qed.

Lemma Z_mod_3600_60 (s : Z) : ((s mod 3600) mod 60 = s mod 60)%Z.
Proof. Z.to_euclidean_division_equations. lia. Qed.

(** Which of the letters a duration text holds. *)
Lemma format_time_seconds_signature (s : Z) :
  (0 <= s)%Z →
  contains "h" (format_time_seconds s) = (3600 <=? s)%Z ∧
  contains "m" (format_time_seconds s) = (60 <=? s)%Z ∧
  contains "s" (format_time_seconds s) = (0 <? s)%Z.
Proof.
  intros Hs.
  assert (Hd : ∀ c z, is_digit c = false → (0 <= z)%Z →
                      contains c (str_of_Z z) = false)
    by (intros; by apply contains_str_of_Z).
  assert (H1 : (0 <= s / 3600)%Z) by (apply Z.div_pos; lia).
  assert (H2 : (0 <= (s mod 3600) / 60)%Z).
  { apply Z.div_pos; [|lia]. apply Z.mod_pos_bound. lia. }
  assert (H3 : (0 <= s mod 60)%Z) by (apply Z.mod_pos_bound; lia).
  destruct (Z.eq_dec s 0%Z) as [->|Hne]; [done|].
  rewrite format_time_seconds_cases by lia.
  replace (0 <? s)%Z with true by (symmetry; apply Z.ltb_lt; lia).
  destruct (Z.leb_spec 3600 s); [|destruct (Z.leb_spec 60 s)];
    rewrite !contains_app, !Hd by done; cbn; repeat split;
    try done; symmetry; first [apply Z.leb_le; lia | apply Z.leb_gt; lia].
Qed.

(** X5: two different non-negative durations never read alike. *)
Theorem format_time_seconds_inj (s1 s2 : Z) :
  (0 <= s1)%Z → (0 <= s2)%Z →
  format_time_seconds s1 = format_time_seconds s2 → s1 = s2.
Proof.
  intros Hs1 Hs2 H.
  destruct (format_time_seconds_signature s1 Hs1) as (Hh1 & Hm1 & Hz1).
  destruct (format_time_seconds_signature s2 Hs2) as (Hh2 & Hm2 & Hz2).
  rewrite H in Hh1, Hm1, Hz1. rewrite Hh2 in Hh1. rewrite Hm2 in Hm1.
  rewrite Hz2 in Hz1. clear Hh2 Hm2 Hz2.
  destruct (Z.ltb_spec 0 s2) as [Hp2|]; destruct (Z.ltb_spec 0 s1) as [Hp1|];
    try done; [|lia].
  assert (Hd : ∀ c z, is_digit c = false → (0 <= z)%Z →
                      contains c (str_of_Z z) = false)
    by (intros; by apply contains_str_of_Z).
  assert (Hb : ∀ s, (0 <= s)%Z →
                    (0 <= s / 3600 ∧ 0 <= (s mod 3600) / 60 ∧ 0 <= s mod 60)%Z).
  { intros s Hs. repeat split.
    - apply Z.div_pos; lia.
    - apply Z.div_pos; [|lia]. apply Z.mod_pos_bound. lia.
    - apply Z.mod_pos_bound. lia. }
  destruct (Hb s1 Hs1) as (? & ? & ?). destruct (Hb s2 Hs2) as (? & ? & ?).
  rewrite !format_time_seconds_cases in H by done.
  assert (Hsec : ∀ a b, (0 <= a)%Z → (0 <= b)%Z →
                        str_of_Z a ++ "s" = str_of_Z b ++ "s" → a = b).
  { intros a b Ha Hb' E. apply string_app_split in E as [E _]; auto.
    by apply str_of_Z_inj. }
  assert (Hmin : ∀ a b a' b', (0 <= a)%Z → (0 <= b)%Z → (0 <= a')%Z → (0 <= b')%Z →
                              str_of_Z a ++ "m " ++ str_of_Z b ++ "s"
                              = str_of_Z a' ++ "m " ++ str_of_Z b' ++ "s" →
                              a = a' ∧ b = b').
  { intros a b a' b' Ha Hb' Ha' Hb'' E.
    apply string_app_split in E as [Ea E]; auto.
    injection E as E.
    split; [by apply str_of_Z_inj|]. by apply Hsec. }
  destruct (Z.leb_spec 3600 s1); destruct (Z.leb_spec 3600 s2); try done.
  - apply string_app_split in H as [Eh E]; auto.
    injection E as E.
    apply Hmin in E as [Em Er]; auto.
    apply str_of_Z_inj in Eh.
    rewrite (Z.div_mod s1 3600), (Z.div_mod s2 3600) by lia.
    rewrite (Z.div_mod (s1 mod 3600) 60), (Z.div_mod (s2 mod 3600) 60) by lia.
    rewrite !Z_mod_3600_60.
    by rewrite Eh, Em, Er.
  - destruct (Z.leb_spec 60 s1); destruct (Z.leb_spec 60 s2); try done.
    + apply Hmin in H as [Em Er]; auto.
      rewrite (Z.mod_small s1 3600), (Z.mod_small s2 3600) in Em by lia.
      rewrite (Z.div_mod s1 60), (Z.div_mod s2 60) by lia.
      by rewrite Em, Er.
    + apply Hsec in H; auto.
      rewrite (Z.mod_small s1 60), (Z.mod_small s2 60) in H by lia. done.
Qed.

(** X6: a negative number of seconds is not refused and not shown as
    negative: it reads as the time left to the next full hour, its
    remainder modulo 3600 ("0s" on a full hour), with no sign and no
    hours. *)
Theorem format_time_seconds_negative (s : Z) :
  (s < 0)%Z →
  format_time_seconds s
  = if (s mod 3600 =? 0)%Z then "0s" else format_time_seconds (s mod 3600).
Proof.
  intros Hs.
  assert (Hm : (0 <= s mod 3600 < 3600)%Z) by (apply Z.mod_pos_bound; lia).
  pose proof (Z_mod_3600_60 s) as H60.
  unfold format_time_seconds at 1.
  replace (s =? 0)%Z with false by (symmetry; apply Z.eqb_neq; lia).
  replace (0 <? s / 3600)%Z with false.
  2:{ symmetry. apply Z.ltb_ge.
      assert (s / 3600 < 0)%Z by (apply Z.div_lt_upper_bound; lia). lia. }
  destruct (Z.eqb_spec (s mod 3600) 0) as [H0|Hn0].
  - rewrite <- H60, H0. done.
  - unfold format_time_seconds.
    replace (s mod 3600 =? 0)%Z with false by (symmetry; apply Z.eqb_neq; lia).
    rewrite (Z.div_small (s mod 3600) 3600) by lia.
    rewrite (Z.mod_small (s mod 3600) 3600) by lia.
    rewrite H60. done.
Qed.

(** ** More on the record transformation *)

Section TransformMore.

Variable parse : string → option datetime.

#[local] Arguments format_time_seconds : simpl never.
#[local] Arguments strftime : simpl never.
#[local] Arguments join : simpl never.

(** X7: the transformation reads nine fields of a record and nothing else:
    two records that hold the same values under them (an object among
    the values with its keys in the same order) are transformed alike,
    whatever else they hold. *)
Theorem issue_data_reads_issue_keys (o1 o2 : dict json) :
  (∀ k, k ∈ issue_keys → o1 !! k = o2 !! k) →
  issue_data parse (JObj o1) = issue_data parse (JObj o2).
Proof.
  intros H. unfold issue_data. cbn [dict_get subscript].
  rewrite (H "assignees"), (H "labels"), (H "created_at"), (H "time_stats"),
    (H "iid"), (H "title"), (H "description"), (H "author"), (H "state")
    by (unfold issue_keys; set_solver).
  reflexivity.
Qed.

(** With the optional fields in order, what is left of the transformation
    is the reading of the required ones, the timestamp first. *)
Lemma issue_data_required (o : dict json) :
  optional_ok o = true →
  ∃ assignees labels estimate spent,
    issue_data parse (JObj o)
    = (created_v ← subscript (JObj o) "created_at";
       created ← parser_parse parse created_v;
       iid ← subscript (JObj o) "iid";
       title ← subscript (JObj o) "title";
       author ← subscript (JObj o) "author";
       author_name ← subscript author "name";
       issue_state ← subscript (JObj o) "state";
       Ok [ iid; title; default (JStr "") (o !! "description"); author_name;
            issue_state; JStr assignees; JStr labels;
            JStr (strftime "%Y-%m-%d %H:%M:%S" created);
            JStr estimate; JStr spent ]).
Proof.
  unfold optional_ok. rewrite !andb_true_iff. intros [[Ha Hl] Hts].
  assert (∃ items names,
            iter (default (JList []) (o !! "assignees")) = Ok items ∧
            Forall2 (λ a n, subscript a "name" = Ok (JStr n)) items names)
    as (items & names & Hit & Hnames).
  { destruct (o !! "assignees") as [[| | | |l|]|]; try done.
    - destruct (named_list_names l Ha) as [names ?]. by exists l, names.
    - exists [], []. by split; [|constructor]. }
  assert (∃ labels,
            join_values ", " (default (JList []) (o !! "labels")) = Ok labels)
    as [labels Hlabels].
  { destruct (o !! "labels") as [[| | | |l|]|]; try done.
    - by apply text_list_join.
    - by exists "". }
  assert (∃ ts estimate spent,
            default (JObj ∅) (o !! "time_stats") = JObj ts ∧
            format_time_value (default (JInt 0) (ts !! "time_estimate"))
              = Ok estimate ∧
            format_time_value (default (JInt 0) (ts !! "total_time_spent"))
              = Ok spent)
    as (ts & estimate & spent & Hts' & Hest & Hsp).
  { destruct (o !! "time_stats") as [[| | | | |ts]|]; try done.
    - cbn [from_option is_time_stats] in Hts.
      apply andb_prop in Hts as [H1 H2]. exists ts.
      destruct (ts !! "time_estimate") as [e|];
        destruct (ts !! "total_time_spent") as [p|]; cbn in H1, H2 |- *;
        try destruct (number_format e H1) as [? ->];
        try destruct (number_format p H2) as [? ->]; by eexists _, _.
    - exists ∅. rewrite !dict_lookup_empty. by eexists _, _. }
  exists (join ", " names), labels, estimate, spent.
  unfold issue_data. cbn [dict_get mbind result_bind].
  rewrite Hit. cbn [mbind result_bind].
  rewrite (proj2 (mapM_Ok _ items (JStr <$> names))) by
    by apply Forall2_fmap_r.
  cbn [mbind result_bind].
  rewrite (proj2 (all_str_Ok _ names) eq_refl).
  cbn [mbind result_bind]. rewrite Hlabels. cbn [mbind result_bind].
  destruct (subscript (JObj o) "created_at") as [cv|e]; [|done].
  cbn [mbind result_bind].
  destruct (parser_parse parse cv) as [dt|e]; [|done].
  cbn [mbind result_bind]. rewrite Hts'. cbn [mbind result_bind dict_get].
  rewrite Hest. cbn [mbind result_bind]. rewrite Hsp. done.
Qed.


End TransformMore.

(** ** More on the report writer *)

Lemma ws_cell_Ok (ws : worksheet) (row column : nat) (v : json) (cv : cell_value) :
  bind_value v = Ok cv → ∃ ws', ws_cell ws row column v = Ok ws'.
Proof.
  intros H. unfold ws_cell. destruct v; try (rewrite H; by eexists).
  by eexists.
Qed.

Lemma write_values_raises (data : list json) (e : exn) :
  mapM bind_value data = Raise e →
  ∀ ws row col, write_values ws row col data = Raise e.
Proof.
  induction data as [|v data IH]; intros H ws row col; [done|].
  rewrite mapM_cons in H. cbn [write_values].
  destruct (bind_value v) as [cv|e'] eqn:Hv.
  - destruct (ws_cell_Ok ws row col v cv Hv) as [ws' ->].
    cbn [mbind result_bind] in *. apply IH.
    destruct (mapM bind_value data); [done|]. by injection H as <-.
  - injection H as <-. by rewrite (ws_cell_raises ws row col v e').
Qed.

Section WriterMore.

Variable parse : string → option datetime.

Local Open Scope list_scope.

Lemma write_issues_app (l1 l2 : list json) :
  ∀ ws row,
    write_issues parse ws row (l1 ++ l2)
    = (ws' ← write_issues parse ws row l1;
       write_issues parse ws' (row + length l1) l2).
Proof.
  induction l1 as [|issue l1 IH]; intros ws row.
  - cbn. by rewrite Nat.add_0_r.
  - cbn [write_issues app length].
    destruct (issue_data parse issue) as [data|e]; [|done].
    cbn [mbind result_bind].
    destruct (write_values ws row 1 data) as [ws1|e]; [|done].
    cbn [mbind result_bind]. rewrite IH. by rewrite Nat.add_succ_comm.
Qed.

Lemma write_issues_first_error (good : list json) (rows : list (list cell_value))
    (bad : json) (rest : list json) (e : exn) (ws : worksheet) (row : nat) :
  Forall2 (λ issue r, report_row parse issue = Ok r) good rows →
  report_row parse bad = Raise e →
  (∀ r c, row ≤ r → cells ws !! (r, c) = None) →
  write_issues parse ws row (good ++ bad :: rest) = Raise e.
Proof.
  intros Hgood Hbad Hfresh. rewrite write_issues_app.
  destruct (write_issues_spec parse good rows ws row Hgood Hfresh)
    as (ws' & -> & _).
  cbn [mbind result_bind write_issues]. unfold report_row in Hbad.
  destruct (issue_data parse bad) as [data|e']; [|by injection Hbad as <-].
  cbn [mbind result_bind] in *. by rewrite (write_values_raises data e Hbad).
Qed.

(** Every sequence of records has its rows, or a first record without
    one. *)
Lemma rows_or_first_failure (issues : list json) :
  (∃ rows, Forall2 (λ issue r, report_row parse issue = Ok r) issues rows)
  ∨ (∃ good rows bad rest e,
       issues = good ++ bad :: rest ∧
       Forall2 (λ issue r, report_row parse issue = Ok r) good rows ∧
       report_row parse bad = Raise e).
Proof.
  induction issues as [|issue issues IH]; [left; by exists []|].
  destruct (report_row parse issue) as [row|e] eqn:Hrow.
  - destruct IH as [[rows Hrows]|(good & rows & bad & rest & e & -> & Hgood & Hbad)].
    + left. exists (row :: rows). by constructor.
    + right. exists (issue :: good), (row :: rows), bad, rest, e.
      split; [done|]. split; [by constructor|done].
  - right. exists [], [], issue, issues, e. split; [done|]. by split; [constructor|].
Qed.

(** X9: the export raises the exception of the first record, in the order
    given, that has no Report Row, be it that the transformation raises or
    that a cell refuses one of the values (a list or a dict, or a text
    with a control character); the records after it are not looked at and
    nothing is saved. *)
Theorem export_to_excel_first_error (now : datetime) (good : list json)
    (rows : list (list cell_value)) (bad : json) (rest : list json) (e : exn)
    (filename : option string) :
  Forall2 (λ issue r, report_row parse issue = Ok r) good rows →
  report_row parse bad = Raise e →
  export_to_excel parse now (good ++ bad :: rest) filename = Raise e.
Proof.
  intros Hgood Hbad. unfold export_to_excel.
  set (ws0 := new_sheet "GitLab Issues").
  rewrite (write_headers_put_row headers ws0 1)
    by (done || apply headers_accepted).
  cbn [mbind result_bind].
  destruct (put_row_spec (header_cell <$> headers) ws0 1 1)
    as (_ & _ & _ & _ & Hcells).
  rewrite (write_issues_first_error good rows bad rest e); try done.
  intros r c Hr. rewrite Hcells. by rewrite decide_False by lia.
Qed.

(** An export that succeeds had a Report Row for every record. *)
Lemma export_to_excel_Ok_rows (now : datetime) (issues : list json)
    (filename : option string) (name : string) (ws : worksheet) :
  export_to_excel parse now issues filename = Ok (name, ws) →
  ∃ rows, Forall2 (λ issue r, report_row parse issue = Ok r) issues rows.
Proof.
  intros Hok.
  destruct (rows_or_first_failure issues)
    as [Hrows|(good & rows & bad & rest & e & -> & Hgood & Hbad)]; [done|].
  exfalso. unfold export_to_excel in Hok.
  set (ws0 := new_sheet "GitLab Issues") in Hok.
  rewrite (write_headers_put_row headers ws0 1) in Hok
    by (done || apply headers_accepted).
  cbn [mbind result_bind] in Hok.
  destruct (put_row_spec (header_cell <$> headers) ws0 1 1)
    as (_ & _ & _ & _ & Hcells).
  rewrite (write_issues_first_error good rows bad rest e) in Hok; try done.
  intros r c Hr. rewrite Hcells. by rewrite decide_False by lia.
Qed.

(** X10: the export gets as far as [wb.save], raising nothing while the
    sheet is built, exactly when every record has its Report Row. *)
Theorem export_to_excel_succeeds (now : datetime) (issues : list json)
    (filename : option string) :
  succeeds (export_to_excel parse now issues filename)
  = forallb (λ issue, succeeds (report_row parse issue)) issues.
Proof.
  destruct (export_to_excel parse now issues filename) as [[name ws]|e] eqn:Hex.
  - apply export_to_excel_Ok_rows in Hex as [rows Hrows].
    symmetry. apply forallb_forall. intros issue Hin.
    apply list_elem_of_In in Hin.
    apply list_elem_of_lookup in Hin as [i Hi].
    eapply Forall2_lookup_l in Hrows as (row & _ & ->); [done|exact Hi].
  - symmetry. apply not_true_is_false. intros Hall.
    rewrite forallb_forall in Hall.
    destruct (rows_or_first_failure issues)
      as [[rows Hrows]|(good & rows & bad & rest & e' & -> & Hgood & Hbad)].
    + destruct (export_to_excel_sheet parse now issues rows filename Hrows)
        as (name & ws & Hok & _). by rewrite Hok in Hex.
    + specialize (Hall bad). rewrite Hbad in Hall.
      apply diff_false_true, Hall. apply in_or_app. right. by left.
Qed.

(** X11: the cells of the document: in row 1 the ten labels, bold on a
    solid fill of colour CCCCCC; below, the values of the Report Rows, as
    the cells keep them (text cut to 32767 characters), in plain cells;
    and no cell anywhere else. The sheet is titled "GitLab
    Issues". *)
Theorem export_to_excel_cells (now : datetime) (issues : list json)
    (rows : list (list cell_value)) (filename : option string) :
  Forall2 (λ issue r, report_row parse issue = Ok r) issues rows →
  ∃ name ws,
    export_to_excel parse now issues filename = Ok (name, ws) ∧
    title ws = "GitLab Issues" ∧
    (∀ c header,
        headers !! c = Some header →
        cells ws !! (1, S c)
        = Some (mk_cell (VStr header) (Font true)
                  (Some (PatternFill "CCCCCC" "CCCCCC" "solid")))) ∧
    (∀ i row c v,
        rows !! i = Some row → row !! c = Some v →
        cells ws !! (2 + i, S c) = Some (mk_cell v (Font false) None)) ∧
    (∀ r c, is_Some (cells ws !! (r, c)) →
            1 ≤ r ≤ 1 + length issues ∧ 1 ≤ c ≤ 10).
Proof.
  intros Hrows.
  destruct (export_to_excel_sheet parse now issues rows filename Hrows)
    as (name & ws & Hok & Ht & _ & Hr & Hc & Hcells).
  destruct (adjust_widths_spec ws) as (Ht' & Hcs' & _).
  pose proof (Forall2_length _ _ _ Hrows) as Hlen.
  exists name, (adjust_widths ws). split; [done|].
  rewrite Ht', Hcs'. split; [done|]. split; [|split].
  - intros c header Hh. rewrite Hcells. unfold expected_cell.
    rewrite decide_True by lia. replace (S c - 1) with c by lia.
    by rewrite Hh.
  - intros i row c v Hi Hv. rewrite Hcells. unfold expected_cell, data_cell.
    rewrite decide_False by lia. rewrite decide_True by lia.
    replace (2 + i - 2) with i by lia. replace (S c - 1) with c by lia.
    rewrite Hi. cbn [mbind option_bind]. by rewrite Hv.
  - intros r c [x Hx]. rewrite Hcells in Hx. unfold expected_cell, data_cell in Hx.
    destruct (decide (r = 1 ∧ 1 ≤ c)) as [[-> Hc1]|Hn1].
    + destruct (headers !! (c - 1)) as [h|] eqn:Hh; [|done].
      apply lookup_lt_Some in Hh. cbn [length headers] in Hh. lia.
    + destruct (decide (2 ≤ r ∧ 1 ≤ c)) as [[Hr2 Hc1]|]; [|done].
      destruct (rows !! (r - 2)) as [row|] eqn:Hrow; [|done].
      cbn [mbind option_bind] in Hx.
      destruct (row !! (c - 1)) as [v|] eqn:Hv; [|done].
      apply lookup_lt_Some in Hv.
      eapply Forall2_lookup_r in Hrows as (issue & Hissue & Hr0); [|exact Hrow].
      apply report_row_length in Hr0.
      apply lookup_lt_Some in Hissue. lia.
Qed.

(** X12: every column is at least as wide as its header label and two
    more, and at most 50 wide. *)
Theorem export_to_excel_width_bounds (now : datetime) (issues : list json)
    (filename : option string) (name : string) (ws : worksheet) :
  export_to_excel parse now issues filename = Ok (name, ws) →
  ∀ c header,
    headers !! c = Some header →
    ∃ w, column_width ws !! (S c) = Some w ∧ len header + 2 ≤ w ≤ 50.
Proof.
  intros Hok c header Hh.
  destruct (export_to_excel_Ok_rows now issues filename name ws Hok)
    as [rows Hrows].
  destruct (export_to_excel_sheet parse now issues rows filename Hrows)
    as (name' & ws' & Hok' & _ & _ & Hr & Hc & Hcells).
  rewrite Hok' in Hok. injection Hok as _ <-.
  destruct (adjust_widths_spec ws') as (_ & _ & _ & _ & Hw).
  assert (c < 10) by (apply lookup_lt_Some in Hh; exact Hh).
  eexists. rewrite Hw, Hc. rewrite decide_True by lia. split; [done|].
  rewrite max_length_of_max_list. unfold ws_column. rewrite Hr.
  cbn [seq fmap list_fmap max_list_with]. unfold cell_at at 1.
  rewrite Hcells. unfold expected_cell. rewrite decide_True by lia.
  replace (S c - 1) with c by lia. rewrite Hh.
  cbn [fmap option_fmap option_map default from_option id header_cell value str_of_value].
  assert (len header ≤ 24).
  { clear -Hh. do 10 (destruct c as [|c]; [injection Hh as <-; vm_compute; lia|]).
    done. }
  unfold id at 1. lia.
Qed.

End WriterMore.

(** ** Reading the dates *)

Section InputProofs.

Variable strptime : string → option datetime.

Local Open Scope list_scope.

(** X13: [get_date_input] asks again after every line that is neither
    blank nor a date, complaining once per such line, and stops at the
    first line that is blank (no date) or a date; the lines after it are
    left unread. Blanks around the text of a line do not count. *)
Theorem get_date_input_skips_refused (prompt : string) (bad : list string)
    (line : string) (rest : list string) :
  Forall (refused strptime) bad →
  strip line = "" ∨ is_Some (strptime (strip line)) →
  get_date_input strptime prompt (bad ++ line :: rest)
  = (Got (if decide (strip line = "") then None else strptime (strip line)),
     rest,
     retries prompt (length bad) ++ [Prompt prompt]).
Proof.
  intros Hbad Hline. induction Hbad as [|b bad [Hb1 Hb2] _ IH].
  - cbn [app get_date_input length retries].
    destruct Hline as [Hblank|[d Hd]].
    + rewrite Hblank. by rewrite decide_True.
    + destruct (strip line) as [|a s] eqn:Hs; [by rewrite decide_True|].
      rewrite Hd. by rewrite decide_False.
  - cbn [app get_date_input length retries].
    destruct (strip b) as [|a s] eqn:Hs; [done|].
    rewrite Hb2, IH. done.
Qed.

(** X14: when the input ends before a blank line or a date was typed,
    [get_date_input] ends in [EOFError], having asked once more than
    there were lines. *)
Theorem get_date_input_eof (prompt : string) (bad : list string) :
  Forall (refused strptime) bad →
  get_date_input strptime prompt bad
  = (EOF, [], retries prompt (length bad) ++ [Prompt prompt]).
Proof.
  induction 1 as [|b bad [Hb1 Hb2] _ IH]; [done|].
  cbn [get_date_input length retries].
  destruct (strip b) as [|a s] eqn:Hs; [done|].
  rewrite Hb2, IH. done.
Qed.

End InputProofs.

(** ** The whole run *)

Section MainProofs.

Variable requests_get : request → response.
Variable parse : string → option datetime.
Variable strptime : string → option datetime.
Variable json_load : string → option config.

Local Open Scope list_scope.

(** The values of a sheet of the expected cells. *)
Lemma sheet_values_expected (ws : worksheet) (rows : list (list cell_value)) :
  (∀ r c, cells ws !! (r, c) = expected_cell rows r c) →
  max_row ws = S (length rows) →
  max_column ws = 10 →
  Forall (λ row, length row = 10) rows →
  ws_values ws = (VStr <$> headers) :: rows.
Proof.
  intros Hcells Hr Hc Hlen. unfold ws_values, cell_at. rewrite Hr, Hc.
  replace (S (length rows)) with (length ((VStr <$> headers) :: rows))
    by done.
  apply fmap_seq_eq. intros [|j] x Hx.
  - injection Hx as <-.
    change 10 with (length (VStr <$> headers)).
    apply fmap_seq_eq. intros k y Hy.
    rewrite Hcells. unfold expected_cell. rewrite decide_True by lia.
    replace (1 + k - 1) with k by lia.
    change ((VStr <$> headers) !! k = Some y) in Hy.
    rewrite list_lookup_fmap in Hy.
    destruct (headers !! k) as [h|]; [|done]. by injection Hy as <-.
  - change (rows !! j = Some x) in Hx.
    assert (Hx10 : length x = 10).
    { rewrite Forall_forall in Hlen. apply Hlen.
      by eapply list_elem_of_lookup_2. }
    rewrite <- Hx10. apply fmap_seq_eq. intros k y Hy.
    rewrite Hcells. unfold expected_cell, data_cell.
    rewrite decide_False by lia. rewrite decide_True by lia.
    replace (1 + S j - 2) with j by lia. replace (1 + k - 1) with k by lia.
    rewrite Hx. cbn [mbind option_bind]. by rewrite Hy.
Qed.

(** What a successful export hands over: a name that does not depend on
    the records, and a sheet of the header and the Report Rows. *)
Lemma export_to_excel_values (now : datetime) (issues : list json)
    (rows : list (list cell_value)) :
  Forall2 (λ issue r, report_row parse issue = Ok r) issues rows →
  ∃ ws,
    export_to_excel parse now issues None
    = Ok ("gitlab_issues_" ++ strftime "%Y%m%d_%H%M%S" now ++ ".xlsx", ws)%string ∧
    ws_values ws = (VStr <$> headers) :: rows.
Proof.
  intros Hrows.
  destruct (export_to_excel_sheet parse now issues rows None Hrows)
    as (name & ws & Hok & _ & _ & Hr & Hc & Hcells).
  assert (name = "gitlab_issues_" ++ strftime "%Y%m%d_%H%M%S" now ++ ".xlsx")%string
    as ->.
  { unfold export_to_excel in Hok.
    destruct (write_headers _ 1 headers) as [ws1|]; [|done].
    cbn [mbind result_bind] in Hok.
    destruct (write_issues parse ws1 2 issues) as [ws2|]; [|done].
    by injection Hok as <- _. }
  exists (adjust_widths ws). split; [done|].
  destruct (adjust_widths_spec ws) as (_ & Hcs' & Hr' & Hc' & _).
  pose proof (Forall2_length _ _ _ Hrows) as Hlen.
  apply sheet_values_expected.
  - intros r c. by rewrite Hcs'.
  - by rewrite Hr', Hr, Hlen.
  - by rewrite Hc'.
  - apply Forall_forall. intros row Hin.
    apply list_elem_of_lookup in Hin as [i Hi].
    eapply Forall2_lookup_r in Hrows as (issue & _ & Hrow); [|exact Hi].
    by eapply report_row_length.
Qed.

(** Once the fetch is reached, the rest of [main] is the fetch and the
    export. *)
Lemma main_reaches_fetch (fuel : nat) (fs : string → file_state)
    (writable : string → bool) (now : datetime) (stdin : list string)
    (self : instance) (start_date end_date : option datetime)
    (unread : list string) :
  reaches_fetch strptime json_load fs stdin self start_date end_date unread →
  ∃ out,
    main requests_get parse strptime json_load fuel fs writable now stdin
    = match fetch_and_export requests_get parse fuel writable now self
              start_date end_date with
      | None => None
      | Some (out3, reqs, doc, s) =>
          Some (mk_run (out ++ out3) unread reqs doc s)
      end.
Proof.
  intros (content & c & t & stdin1 & out1 & out2
          & Hfs & Hload & Htoken & -> & Hstart & Hend).
  unfold main, init, load_config. rewrite Hfs, Hload, Htoken.
  unfold start_prompt in Hstart. unfold end_prompt in Hend.
  rewrite Hstart, Hend.
  exists (banner ++ []
            ++ [ Print "Ingrese el rango de fechas para filtrar los issues:";
                 Print "(Deje en blanco para no filtrar por fecha)" ]
            ++ out1 ++ out2).
  destruct (fetch_and_export requests_get parse fuel writable now _
              start_date end_date) as [[[[out3 reqs] doc] s]|]; [|done].
  by rewrite <- !app_assoc.
Qed.

(** The fetch of [main] over a run of non-empty pages. *)
Lemma fetch_issues_over_pages (self : exporter)
    (start_date end_date : option datetime) (pages : list (list json))
    (fuel : nat) :
  Forall (λ p, p ≠ []) pages →
  (∀ i p, pages !! i = Some p →
          requests_get (page_request self start_date end_date (S i)) = Page p) →
  length pages < fuel →
  ∃ out,
    fetch_issues requests_get fuel self start_date end_date
    = fetch_loop requests_get (fuel - length pages) self
        (mk_params 100 (S (length pages)) "all"
           (isoformat <$> start_date) (isoformat <$> end_date))
        (concat pages)
        (mk_log (page_request self start_date end_date <$> seq 1 (length pages))
           out).
Proof.
  intros Hne Hget Hfuel.
  destruct (fetch_loop_pages requests_get self start_date end_date pages 1
              (fuel - length pages) [] (mk_log [] []) Hne Hget) as [out Hout].
  exists out. unfold fetch_issues.
  replace fuel with (length pages + (fuel - length pages)) at 1 by lia.
  exact Hout.
Qed.

(** X15: when a request fails, whatever was fetched before, [main]
    reports that no issues were found, as for an empty project, saves
    nothing and ends normally; the failure shows only in the line the
    fetch printed. *)
Theorem main_fetch_failure (fuel : nat) (fs : string → file_state)
    (writable : string → bool) (now : datetime) (stdin : list string)
    (self : instance) (start_date end_date : option datetime)
    (unread : list string) (project : string) (pages : list (list json))
    (message : string) :
  reaches_fetch strptime json_load fs stdin self start_date end_date unread →
  config_project_id (inst_config self) = Some project →
  Forall (λ p, p ≠ []) pages →
  (∀ i p, pages !! i = Some p →
          requests_get
            (page_request (exporter_of self project) start_date end_date (S i))
          = Page p) →
  requests_get
    (page_request (exporter_of self project) start_date end_date
       (S (length pages)))
  = Failed message →
  length pages < fuel →
  ∃ r,
    main requests_get parse strptime json_load fuel fs writable now stdin
      = Some r ∧
    saved r = None ∧
    ended r = Returned ∧
    last (stdout r) = Some (Print no_issues_line) ∧
    Print (error_line message) ∈ stdout r ∧
    sent r = page_request (exporter_of self project) start_date end_date
               <$> seq 1 (S (length pages)) ∧
    stdin_left r = unread.
Proof.
  intros Hreach Hproject Hne Hget Hfail Hfuel.
  destruct (main_reaches_fetch fuel fs writable now stdin self start_date
              end_date unread Hreach) as [out ->].
  unfold fetch_and_export. rewrite Hproject.
  fold (exporter_of self project).
  destruct (fetch_issues_over_pages (exporter_of self project) start_date
              end_date pages fuel Hne Hget Hfuel) as [out' ->].
  replace (fuel - length pages) with (S (fuel - S (length pages))) by lia.
  cbn [fetch_loop].
  change (mk_request _ _ _)
    with (page_request (exporter_of self project) start_date end_date
            (S (length pages))).
  rewrite Hfail. eexists. split; [done|].
  cbn [saved ended stdout sent stdin_left requests_sent printed].
  split; [done|]. split; [done|]. split.
  { rewrite !app_assoc. apply last_snoc. }
  split.
  { apply elem_of_app. right. apply elem_of_app. left.
    apply elem_of_app. right. rewrite fmap_app. apply elem_of_app. right.
    apply list_elem_of_here. }
  split; [|done]. by rewrite seq_S, fmap_app.
Qed.

(** X16: a configuration without [project_id] is found out late: [main]
    has already asked for both dates when the lookup raises [KeyError];
    no request has been sent and nothing is saved. *)
Theorem main_missing_project_id (fuel : nat) (fs : string → file_state)
    (writable : string → bool) (now : datetime) (stdin : list string)
    (self : instance) (start_date end_date : option datetime)
    (unread : list string) :
  reaches_fetch strptime json_load fs stdin self start_date end_date unread →
  config_project_id (inst_config self) = None →
  ∃ r,
    main requests_get parse strptime json_load fuel fs writable now stdin
      = Some r ∧
    ended r = Crashed (PyExn (KeyError "project_id")) ∧
    Prompt start_prompt ∈ stdout r ∧
    Prompt end_prompt ∈ stdout r ∧
    stdin_left r = unread ∧
    sent r = [] ∧
    saved r = None.
Proof.
  intros Hreach Hproject.
  destruct Hreach as (content & c & t & stdin1 & out1 & out2
                      & Hfs & Hload & Htoken & -> & Hstart & Hend).
  assert (Hp : ∀ prompt input,
             Prompt prompt ∈ (get_date_input strptime prompt input).2).
  { intros prompt input. induction input as [|line input IH].
    - cbn. set_solver.
    - cbn [get_date_input]. destruct (strip line); [cbn; set_solver|].
      destruct (strptime _); [cbn; set_solver|].
      destruct (get_date_input strptime prompt input) as [[? ?] ?].
      cbn. set_solver. }
  pose proof (Hp start_prompt stdin) as H1. rewrite Hstart in H1.
  pose proof (Hp end_prompt stdin1) as H2. rewrite Hend in H2.
  cbn [snd] in H1, H2.
  unfold main, init, load_config. rewrite Hfs, Hload, Htoken.
  unfold start_prompt, end_prompt in Hstart, Hend |- *.
  rewrite Hstart, Hend. unfold fetch_and_export.
  cbn [inst_config] in Hproject |- *. rewrite Hproject.
  eexists. split; [done|].
  cbn [ended stdout stdin_left sent saved].
  split; [done|]. split; [set_solver|]. split; [set_solver|]. done.
Qed.

(** X17: with records on the pages up to the first empty one, a Report
    Row for each (its values as the cells keep them, none refused) and a
    place to write, [main] saves one document, under the default name of
    the moment, whose rows are the header and the Report Rows of all
    records in page order; it reports their number and the name, and ends
    normally. *)
Theorem main_exports_everything (fuel : nat) (fs : string → file_state)
    (writable : string → bool) (now : datetime) (stdin : list string)
    (self : instance) (start_date end_date : option datetime)
    (unread : list string) (project : string) (pages : list (list json))
    (rows : list (list cell_value)) :
  let name :=
    ("gitlab_issues_" ++ strftime "%Y%m%d_%H%M%S" now ++ ".xlsx")%string in
  reaches_fetch strptime json_load fs stdin self start_date end_date unread →
  config_project_id (inst_config self) = Some project →
  pages ≠ [] →
  Forall (λ p, p ≠ []) pages →
  (∀ i p, pages !! i = Some p →
          requests_get
            (page_request (exporter_of self project) start_date end_date (S i))
          = Page p) →
  requests_get
    (page_request (exporter_of self project) start_date end_date
       (S (length pages)))
  = Page [] →
  length pages < fuel →
  Forall2 (λ issue r, report_row parse issue = Ok r) (concat pages) rows →
  writable name = true →
  ∃ r ws,
    main requests_get parse strptime json_load fuel fs writable now stdin
      = Some r ∧
    saved r = Some (name, ws) ∧
    ws_values ws = (VStr <$> headers) :: rows ∧
    ended r = Returned ∧
    Print ("Se encontraron " ++ str_of_Z (Z.of_nat (length rows)) ++ " issues.")%string
      ∈ stdout r ∧
    last (stdout r)
      = Some (Print ("Issues exportados exitosamente a: " ++ name)%string) ∧
    sent r = page_request (exporter_of self project) start_date end_date
               <$> seq 1 (S (length pages)).
Proof.
  intros name Hreach Hproject Hsome Hne Hget Hlast Hfuel Hrows Hw.
  assert (∃ x issues, concat pages = x :: issues) as (x & issues & Hconcat).
  { clear -Hsome Hne. destruct pages as [|[|x p] pages]; [done| |by eexists _, _].
    by apply Forall_cons in Hne as [? _]. }
  pose proof (Forall2_length _ _ _ Hrows) as Hlen.
  destruct (export_to_excel_values now (concat pages) rows Hrows)
    as (ws & Hex & Hvalues).
  clear Hrows. rewrite Hconcat in Hex, Hlen.
  destruct (main_reaches_fetch fuel fs writable now stdin self start_date
              end_date unread Hreach) as [out ->]. clear Hreach.
  unfold fetch_and_export. rewrite Hproject.
  fold (exporter_of self project).
  destruct (fetch_issues_over_pages (exporter_of self project) start_date
              end_date pages fuel Hne Hget Hfuel) as [out' ->].
  replace (fuel - length pages) with (S (fuel - S (length pages))) by lia.
  cbn [fetch_loop].
  change (mk_request _ _ _)
    with (page_request (exporter_of self project) start_date end_date
            (S (length pages))).
  rewrite Hlast, Hconcat, Hex. fold name. rewrite Hw.
  exists (mk_run
            (out ++ ([Print ""; Print "Obteniendo issues de GitLab..."]
                       ++ (Print <$> out'))
                 ++ [Print ("Se encontraron "
                              ++ str_of_Z (Z.of_nat (length (x :: issues)))
                              ++ " issues.")%string;
                     Print "Exportando a Excel..."]
                 ++ [Print ("Issues exportados exitosamente a: " ++ name)%string])
            unread
            (page_request (exporter_of self project) start_date end_date
               <$> seq 1 (S (length pages)))
            (Some (name, ws)) Returned), ws.
  cbn [saved ended stdout sent stdin_left requests_sent printed].
  split.
  { rewrite seq_S, fmap_app, <- !app_assoc. done. }
  split; [reflexivity|]. split; [exact Hvalues|]. split; [reflexivity|]. split.
  { rewrite <- Hlen. apply elem_of_app. right. apply elem_of_app. right.
    apply elem_of_app. left. apply list_elem_of_here. }
  split; [|reflexivity]. rewrite !app_assoc. apply last_snoc.
Qed.

(** X18: whatever the configuration, the input and the server, a document
    is saved only at the end of a run that went well: when [main] has
    saved one, every request was answered, the pages before the first
    empty one held at least one record, the rows of the document are the
    header and the Report Rows of all their records in page order (their
    values as the cells keep them), and the run ended normally. *)
Theorem main_saved_sound (fuel : nat) (fs : string → file_state)
    (writable : string → bool) (now : datetime) (stdin : list string)
    (r : run) (name : string) (ws : worksheet) :
  main requests_get parse strptime json_load fuel fs writable now stdin = Some r →
  saved r = Some (name, ws) →
  ended r = Returned ∧
  writable name = true ∧
  ∃ self start_date end_date pages rows,
    pages ≠ [] ∧
    Forall (λ p, p ≠ []) pages ∧
    (∀ i p, pages !! i = Some p →
            requests_get (page_request self start_date end_date (S i)) = Page p) ∧
    requests_get (page_request self start_date end_date (S (length pages)))
      = Page [] ∧
    sent r = page_request self start_date end_date <$> seq 1 (S (length pages)) ∧
    Forall2 (λ issue row, report_row parse issue = Ok row) (concat pages) rows ∧
    ws_values ws = (VStr <$> headers) :: rows.
Proof.
  unfold main. intros Hmain Hsaved.
  destruct (fs "config.json") eqn:Hfs;
    [injection Hmain as <-; discriminate Hsaved| |].
  all: destruct (init json_load fs "config.json") as [out [s|self]];
    [injection Hmain as <-; discriminate Hsaved|].
  all: destruct (get_date_input strptime _ stdin) as [[[start_date|] stdin1] out1];
    [|injection Hmain as <-; discriminate Hsaved].
  all: destruct (get_date_input strptime _ stdin1) as [[[end_date|] stdin2] out2];
    [|injection Hmain as <-; discriminate Hsaved].
  all: unfold fetch_and_export in Hmain.
  all: destruct (config_project_id (inst_config self)) as [project|];
    [|injection Hmain as <-; discriminate Hsaved].
  all: destruct (fetch_issues requests_get fuel _ start_date end_date)
    as [[issues log]|] eqn:Hfetch; [|discriminate Hmain].
  all: destruct issues as [|x issues];
    [injection Hmain as <-; discriminate Hsaved|].
  all: destruct (export_to_excel parse now (x :: issues) None)
    as [[filename ws']|e] eqn:Hex;
    [|injection Hmain as <-; discriminate Hsaved].
  all: destruct (writable filename) eqn:Hw;
    [|injection Hmain as <-; discriminate Hsaved].
  all: injection Hmain as <-; cbn [saved ended sent] in *.
  all: injection Hsaved as <- <-.
  all: split; [done|]; split; [done|].
  all: unfold fetch_issues in Hfetch.
  all: apply fetch_loop_returns in Hfetch as (pages & Hne & Hget & Hsent & Hend).
  all: destruct Hend as [(He & Hissues & _)|(message & _ & Hissues & _)];
    [|discriminate Hissues].
  all: cbn [app requests_sent] in Hissues, Hsent.
  all: destruct (export_to_excel_Ok_rows parse now _ None _ _ Hex) as [rows Hrows].
  all: destruct (export_to_excel_values now _ rows Hrows) as (ws2 & Hex2 & Hvalues).
  all: rewrite Hex in Hex2; injection Hex2 as _ <-.
  all: eexists _, start_date, end_date, pages, rows.
  all: split; [by intros ->|].
  all: split; [exact Hne|]; split; [exact Hget|]; split; [exact He|].
  all: split; [exact Hsent|]; by rewrite <- Hissues.
Qed.

(** X19: [main] sends nothing over the network unless the configuration
    was read and holds both the token and the project; and every request
    it sends goes to the issues URL of that project under the configured
    base URL ([https://gitlab.com] when none is configured), carries that
    token, and asks for pages of 100 issues in any state. *)
Theorem main_requests (fuel : nat) (fs : string → file_state)
    (writable : string → bool) (now : datetime) (stdin : list string)
    (r : run) (q : request) :
  main requests_get parse strptime json_load fuel fs writable now stdin = Some r →
  q ∈ sent r →
  ∃ content c t project,
    fs "config.json" = FileText content ∧
    json_load content = Some c ∧
    gitlab_token c = Some t ∧
    config_project_id c = Some project ∧
    token q = t ∧
    url q = (default "https://gitlab.com" (gitlab_url c) ++ "/api/v4/projects/"
               ++ project ++ "/issues")%string ∧
    per_page (query q) = 100 ∧
    state (query q) = "all".
Proof.
  unfold main. intros Hmain Hq.
  destruct (fs "config.json") as [| |content] eqn:Hfs;
    [injection Hmain as <-; by apply elem_of_nil in Hq| |].
  all: unfold init, load_config in Hmain; rewrite Hfs in Hmain.
  { injection Hmain as <-. by apply elem_of_nil in Hq. }
  destruct (json_load content) as [c|] eqn:Hload;
    [|injection Hmain as <-; by apply elem_of_nil in Hq].
  destruct (gitlab_token c) as [t|] eqn:Htoken;
    [|injection Hmain as <-; by apply elem_of_nil in Hq].
  destruct (get_date_input strptime _ stdin) as [[[start_date|] stdin1] out1];
    [|injection Hmain as <-; by apply elem_of_nil in Hq].
  destruct (get_date_input strptime _ stdin1) as [[[end_date|] stdin2] out2];
    [|injection Hmain as <-; by apply elem_of_nil in Hq].
  unfold fetch_and_export in Hmain. cbn [inst_config inst_token inst_base_url] in Hmain.
  destruct (config_project_id c) as [project|] eqn:Hproject;
    [|injection Hmain as <-; by apply elem_of_nil in Hq].
  destruct (fetch_issues requests_get fuel _ start_date end_date)
    as [[issues log]|] eqn:Hfetch; [|discriminate Hmain].
  assert (Hsent : sent r = requests_sent log).
  { destruct issues as [|x issues]; [by injection Hmain as <-|].
    destruct (export_to_excel parse now (x :: issues) None) as [[filename ws]|e];
      [|by injection Hmain as <-].
    destruct (writable filename); by injection Hmain as <-. }
  clear Hmain. rewrite Hsent in Hq.
  unfold fetch_issues in Hfetch.
  apply fetch_loop_returns in Hfetch as (pages & _ & _ & Hreqs & _).
  cbn [requests_sent app] in Hreqs. rewrite Hreqs in Hq.
  apply list_elem_of_fmap in Hq as (n & -> & _).
  by exists content, c, t, project.
Qed.

End MainProofs.

(** ** The further theorems at the sample data *)

Lemma fetch_issues_returns_witness :
  let req := page_request Examples.gitlab None None in
  fetch_issues Examples.server 5 Examples.gitlab None None
    = Some (Samples.fetched, Samples.fetched_log) ∧
  ∃ pages,
    Forall (λ p, p ≠ []) pages ∧
    (∀ i p, pages !! i = Some p → Examples.server (req (S i)) = Page p) ∧
    requests_sent Samples.fetched_log = req <$> seq 1 (S (length pages)) ∧
    ((Examples.server (req (S (length pages))) = Page [] ∧
      Samples.fetched = concat pages)
     ∨ (∃ message,
          Examples.server (req (S (length pages))) = Failed message ∧
          Samples.fetched = [])).
Proof.
  intros req.
  assert (H : fetch_issues Examples.server 5 Examples.gitlab None None
              = Some (Samples.fetched, Samples.fetched_log)) by reflexivity.
  split; [exact H|].
  exact (fetch_issues_returns Examples.server Examples.gitlab None None 5
           Samples.fetched Samples.fetched_log H).
Defined.

Lemma fetch_issues_nonempty_complete_witness :
  let req := page_request Examples.gitlab None None in
  fetch_issues Examples.server 5 Examples.gitlab None None
    = Some (Samples.fetched, Samples.fetched_log) ∧
  Samples.fetched ≠ [] ∧
  ∃ pages,
    Samples.fetched = concat pages ∧
    Forall (λ p, p ≠ []) pages ∧
    (∀ i p, pages !! i = Some p → Examples.server (req (S i)) = Page p) ∧
    Examples.server (req (S (length pages))) = Page [] ∧
    ∀ r, r ∈ requests_sent Samples.fetched_log →
         ∀ message, Examples.server r ≠ Failed message.
Proof.
  intros req.
  assert (H : fetch_issues Examples.server 5 Examples.gitlab None None
              = Some (Samples.fetched, Samples.fetched_log)) by reflexivity.
  assert (Hne : Samples.fetched ≠ []) by discriminate.
  split; [exact H|]. split; [exact Hne|].
  exact (fetch_issues_nonempty_complete Examples.server Examples.gitlab None None
           5 Samples.fetched Samples.fetched_log H Hne).
Defined.

Lemma fetch_issues_progress_witness :
  let req := page_request Examples.gitlab None None in
  fetch_issues Examples.server 5 Examples.gitlab None None
    = Some (Samples.fetched, Samples.fetched_log) ∧
  Samples.fetched ≠ [] ∧
  ∃ pages,
    (∀ i p, pages !! i = Some p → Examples.server (req (S i)) = Page p) ∧
    Samples.fetched = concat pages ∧
    printed Samples.fetched_log = progress_lines 0 pages ∧
    length (printed Samples.fetched_log) = length pages.
Proof.
  intros req.
  assert (H : fetch_issues Examples.server 5 Examples.gitlab None None
              = Some (Samples.fetched, Samples.fetched_log)) by reflexivity.
  assert (Hne : Samples.fetched ≠ []) by discriminate.
  split; [exact H|]. split; [exact Hne|].
  exact (fetch_issues_progress Examples.server Examples.gitlab None None
           5 Samples.fetched Samples.fetched_log H Hne).
Defined.

Lemma fetch_issues_endless_witness :
  (∀ n, 1 ≤ n →
        ∃ x p, Samples.server_endless (page_request Examples.gitlab None None n)
               = Page (x :: p)) ∧
  ∀ fuel, fetch_issues Samples.server_endless fuel Examples.gitlab None None = None.
Proof.
  assert (H : ∀ n, 1 ≤ n →
                ∃ x p, Samples.server_endless
                         (page_request Examples.gitlab None None n)
                       = Page (x :: p))
    by (intros n _; exists Examples.issue_full, []; reflexivity).
  split; [exact H|].
  exact (fetch_issues_endless Samples.server_endless Examples.gitlab None None H).
Defined.

Lemma format_time_seconds_inj_witness :
  (0 <= 90)%Z ∧ (0 <= 30 + 60)%Z ∧
  format_time_seconds 90 = format_time_seconds (30 + 60) ∧
  (90 = 30 + 60)%Z.
Proof.
  assert (H1 : (0 <= 90)%Z) by lia.
  assert (H2 : (0 <= 30 + 60)%Z) by lia.
  assert (H3 : format_time_seconds 90 = format_time_seconds (30 + 60))
    by reflexivity.
  split; [exact H1|]. split; [exact H2|]. split; [exact H3|].
  exact (format_time_seconds_inj 90 (30 + 60) H1 H2 H3).
Defined.

Lemma format_time_seconds_negative_witness :
  (-1 < 0)%Z ∧
  format_time_seconds (-1)
  = if (-1 mod 3600 =? 0)%Z then "0s" else format_time_seconds (-1 mod 3600).
Proof.
  assert (H : (-1 < 0)%Z) by lia.
  split; [exact H|]. exact (format_time_seconds_negative (-1) H).
Defined.

Lemma issue_data_reads_issue_keys_witness :
  (∀ k, k ∈ issue_keys → Samples.fields_weighted !! k = Examples.fields_bare !! k) ∧
  issue_data iso_parse (JObj Samples.fields_weighted)
  = issue_data iso_parse (JObj Examples.fields_bare).
Proof.
  assert (H : ∀ k, k ∈ issue_keys →
                   Samples.fields_weighted !! k = Examples.fields_bare !! k).
  { intros k Hk. unfold issue_keys in Hk.
    repeat (apply elem_of_cons in Hk as [->|Hk]; [vm_compute; reflexivity|]).
    by apply elem_of_nil in Hk. }
  split; [exact H|].
  exact (issue_data_reads_issue_keys iso_parse Samples.fields_weighted
           Examples.fields_bare H).
Defined.


Lemma export_to_excel_first_error_witness :
  Forall2 (λ issue r, report_row iso_parse issue = Ok r)
    [Examples.issue_full] [Examples.row_full] ∧
  report_row iso_parse Samples.issue_control = Raise IllegalCharacterError ∧
  export_to_excel iso_parse Examples.clock
    ([Examples.issue_full] ++ Samples.issue_control :: [Examples.issue_untitled])%list
    None
  = Raise IllegalCharacterError.
Proof.
  assert (H1 : Forall2 (λ issue r, report_row iso_parse issue = Ok r)
                 [Examples.issue_full] [Examples.row_full])
    by (repeat (constructor; [vm_compute; reflexivity|]); constructor).
  assert (H2 : report_row iso_parse Samples.issue_control
               = Raise IllegalCharacterError) by (vm_compute; reflexivity).
  split; [exact H1|]. split; [exact H2|].
  exact (export_to_excel_first_error iso_parse Examples.clock
           [Examples.issue_full] [Examples.row_full] Samples.issue_control
           [Examples.issue_untitled] IllegalCharacterError None H1 H2).
Defined.

Lemma export_to_excel_cells_witness :
  let issues := [Examples.issue_full; Examples.issue_bare] in
  let rows := [Examples.row_full; Examples.row_bare] in
  Forall2 (λ issue r, report_row iso_parse issue = Ok r) issues rows ∧
  ∃ name ws,
    export_to_excel iso_parse Examples.clock issues None = Ok (name, ws) ∧
    title ws = "GitLab Issues" ∧
    (∀ c header,
        headers !! c = Some header →
        cells ws !! (1, S c)
        = Some (mk_cell (VStr header) (Font true)
                  (Some (PatternFill "CCCCCC" "CCCCCC" "solid")))) ∧
    (∀ i row c v,
        rows !! i = Some row → row !! c = Some v →
        cells ws !! (2 + i, S c) = Some (mk_cell v (Font false) None)) ∧
    (∀ r c, is_Some (cells ws !! (r, c)) →
            1 ≤ r ≤ 1 + length issues ∧ 1 ≤ c ≤ 10).
Proof.
  intros issues rows.
  assert (H : Forall2 (λ issue r, report_row iso_parse issue = Ok r) issues rows)
    by (repeat (constructor; [vm_compute; reflexivity|]); constructor).
  split; [exact H|].
  exact (export_to_excel_cells iso_parse Examples.clock issues rows None H).
Defined.

Lemma export_to_excel_width_bounds_witness :
  export_to_excel iso_parse Examples.clock
    [Examples.issue_full; Examples.issue_bare] None
  = Ok (Samples.exported.1, Samples.exported.2) ∧
  ∀ c header,
    headers !! c = Some header →
    ∃ w, column_width Samples.exported.2 !! (S c) = Some w ∧
         len header + 2 ≤ w ≤ 50.
Proof.
  assert (H : export_to_excel iso_parse Examples.clock
                [Examples.issue_full; Examples.issue_bare] None
              = Ok (Samples.exported.1, Samples.exported.2))
    by (vm_compute; reflexivity).
  split; [exact H|].
  exact (export_to_excel_width_bounds iso_parse Examples.clock
           [Examples.issue_full; Examples.issue_bare] None
           Samples.exported.1 Samples.exported.2 H).
Defined.

Lemma get_date_input_skips_refused_witness :
  let bad := ["mañana"; "2024-02-30"] in
  let line := " 2024-02-29 " in
  Forall (refused Samples.strptime_digits) bad ∧
  (strip line = "" ∨ is_Some (Samples.strptime_digits (strip line))) ∧
  get_date_input Samples.strptime_digits start_prompt (bad ++ line :: ["unread"])%list
  = (Got (if decide (strip line = "") then None
          else Samples.strptime_digits (strip line)),
     ["unread"],
     (retries start_prompt (length bad) ++ [Prompt start_prompt])%list).
Proof.
  intros bad line.
  assert (H1 : Forall (refused Samples.strptime_digits) bad).
  { repeat (constructor; [split; [discriminate|vm_compute; reflexivity]|]).
    constructor. }
  assert (H2 : strip line = "" ∨ is_Some (Samples.strptime_digits (strip line)))
    by (right; vm_compute; by eexists).
  split; [exact H1|]. split; [exact H2|].
  exact (get_date_input_skips_refused Samples.strptime_digits start_prompt bad
           line ["unread"] H1 H2).
Defined.

Lemma get_date_input_eof_witness :
  let bad := ["mañana"; "2024-02-30"] in
  Forall (refused Samples.strptime_digits) bad ∧
  get_date_input Samples.strptime_digits end_prompt bad
  = (EOF, [], (retries end_prompt (length bad) ++ [Prompt end_prompt])%list).
Proof.
  intros bad.
  assert (H1 : Forall (refused Samples.strptime_digits) bad).
  { repeat (constructor; [split; [discriminate|vm_compute; reflexivity]|]).
    constructor. }
  split; [exact H1|].
  exact (get_date_input_eof Samples.strptime_digits end_prompt bad H1).
Defined.

Lemma sample_reaches_fetch (json_load : string → option config) (c : config)
    (t : string) :
  json_load Samples.config_text = Some c →
  gitlab_token c = Some t →
  reaches_fetch Samples.strptime_digits json_load Samples.files
    [" 2024-01-01"; ""; "unread"]
    (mk_instance c t (default "https://gitlab.com" (gitlab_url c)))
    (Some Samples.new_year) None ["unread"].
Proof.
  intros Hload Htoken.
  exists Samples.config_text, c, t, [""; "unread"],
    [Prompt start_prompt], [Prompt end_prompt].
  split; [reflexivity|]. split; [exact Hload|]. split; [exact Htoken|].
  split; [reflexivity|]. split; vm_compute; reflexivity.
Defined.

Lemma main_fetch_failure_witness :
  let stdin := [" 2024-01-01"; ""; "unread"] in
  let self := Samples.instance_full in
  let req := page_request (exporter_of self "42") (Some Samples.new_year) None in
  let pages := [[Examples.issue_full; Examples.issue_bare]] in
  reaches_fetch Samples.strptime_digits Samples.json_load_full Samples.files
    stdin self (Some Samples.new_year) None ["unread"] ∧
  config_project_id (inst_config self) = Some "42" ∧
  Forall (λ p, p ≠ []) pages ∧
  (∀ i p, pages !! i = Some p → Examples.server_down (req (S i)) = Page p) ∧
  Examples.server_down (req 2) = Failed "503 Server Error" ∧
  1 < 5 ∧
  ∃ r,
    main Examples.server_down iso_parse Samples.strptime_digits
      Samples.json_load_full 5 Samples.files Samples.always_writable
      Examples.clock stdin = Some r ∧
    saved r = None ∧
    ended r = Returned ∧
    last (stdout r) = Some (Print no_issues_line) ∧
    Print (error_line "503 Server Error") ∈ stdout r ∧
    sent r = req <$> seq 1 2 ∧
    stdin_left r = ["unread"].
Proof.
  intros stdin self req pages.
  assert (H1 : reaches_fetch Samples.strptime_digits Samples.json_load_full
                 Samples.files stdin self (Some Samples.new_year) None ["unread"])
    by (apply (sample_reaches_fetch Samples.json_load_full Samples.config_full
                 "glpat-0000"); reflexivity).
  assert (H2 : config_project_id (inst_config self) = Some "42") by reflexivity.
  assert (H3 : Forall (λ p : list json, p ≠ []) pages)
    by (repeat constructor; discriminate).
  assert (H4 : ∀ i p, pages !! i = Some p →
                      Examples.server_down (req (S i)) = Page p).
  { intros [|i] p; simpl; intros [= <-]; reflexivity. }
  assert (H5 : Examples.server_down (req 2) = Failed "503 Server Error")
    by reflexivity.
  assert (H6 : 1 < 5) by lia.
  repeat (split; [assumption|]).
  exact (main_fetch_failure Examples.server_down iso_parse Samples.strptime_digits
           Samples.json_load_full 5 Samples.files Samples.always_writable
           Examples.clock stdin self (Some Samples.new_year) None ["unread"] "42"
           pages "503 Server Error" H1 H2 H3 H4 H5 H6).
Defined.

Lemma main_missing_project_id_witness :
  let stdin := [" 2024-01-01"; ""; "unread"] in
  let self := Samples.instance_no_project in
  reaches_fetch Samples.strptime_digits Samples.json_load_no_project Samples.files
    stdin self (Some Samples.new_year) None ["unread"] ∧
  config_project_id (inst_config self) = None ∧
  ∃ r,
    main Examples.server iso_parse Samples.strptime_digits
      Samples.json_load_no_project 5 Samples.files Samples.always_writable
      Examples.clock stdin = Some r ∧
    ended r = Crashed (PyExn (KeyError "project_id")) ∧
    Prompt start_prompt ∈ stdout r ∧
    Prompt end_prompt ∈ stdout r ∧
    stdin_left r = ["unread"] ∧
    sent r = [] ∧
    saved r = None.
Proof.
  intros stdin self.
  assert (H1 : reaches_fetch Samples.strptime_digits Samples.json_load_no_project
                 Samples.files stdin self (Some Samples.new_year) None ["unread"])
    by (apply (sample_reaches_fetch Samples.json_load_no_project
                 Samples.config_no_project "glpat-0000"); reflexivity).
  assert (H2 : config_project_id (inst_config self) = None) by reflexivity.
  split; [exact H1|]. split; [exact H2|].
  exact (main_missing_project_id Examples.server iso_parse Samples.strptime_digits
           Samples.json_load_no_project 5 Samples.files Samples.always_writable
           Examples.clock stdin self (Some Samples.new_year) None ["unread"]
           H1 H2).
Defined.

Lemma main_exports_everything_witness :
  let stdin := [" 2024-01-01"; ""; "unread"] in
  let self := Samples.instance_full in
  let req := page_request (exporter_of self "42") (Some Samples.new_year) None in
  let pages := [[Examples.issue_full; Examples.issue_bare]; [Examples.issue_full]] in
  let rows := [Examples.row_full; Examples.row_bare; Examples.row_full] in
  let name := "gitlab_issues_" ++ strftime "%Y%m%d_%H%M%S" Examples.clock ++ ".xlsx" in
  reaches_fetch Samples.strptime_digits Samples.json_load_full Samples.files
    stdin self (Some Samples.new_year) None ["unread"] ∧
  config_project_id (inst_config self) = Some "42" ∧
  pages ≠ [] ∧
  Forall (λ p, p ≠ []) pages ∧
  (∀ i p, pages !! i = Some p → Examples.server (req (S i)) = Page p) ∧
  Examples.server (req 3) = Page [] ∧
  2 < 5 ∧
  Forall2 (λ issue r, report_row iso_parse issue = Ok r) (concat pages) rows ∧
  Samples.always_writable name = true ∧
  ∃ r ws,
    main Examples.server iso_parse Samples.strptime_digits Samples.json_load_full
      5 Samples.files Samples.always_writable Examples.clock stdin = Some r ∧
    saved r = Some (name, ws) ∧
    ws_values ws = (VStr <$> headers) :: rows ∧
    ended r = Returned ∧
    Print ("Se encontraron " ++ str_of_Z (Z.of_nat (length rows)) ++ " issues.")
      ∈ stdout r ∧
    last (stdout r) = Some (Print ("Issues exportados exitosamente a: " ++ name)) ∧
    sent r = req <$> seq 1 3.
Proof.
  intros stdin self req pages rows name.
  assert (H1 : reaches_fetch Samples.strptime_digits Samples.json_load_full
                 Samples.files stdin self (Some Samples.new_year) None ["unread"])
    by (apply (sample_reaches_fetch Samples.json_load_full Samples.config_full
                 "glpat-0000"); reflexivity).
  assert (H2 : config_project_id (inst_config self) = Some "42") by reflexivity.
  assert (H3 : pages ≠ []) by discriminate.
  assert (H4 : Forall (λ p : list json, p ≠ []) pages)
    by (repeat constructor; discriminate).
  assert (H5 : ∀ i p, pages !! i = Some p → Examples.server (req (S i)) = Page p).
  { intros [|[|i]] p; simpl; intros [= <-]; reflexivity. }
  assert (H6 : Examples.server (req 3) = Page []) by reflexivity.
  assert (H7 : 2 < 5) by lia.
  assert (H8 : Forall2 (λ issue r, report_row iso_parse issue = Ok r)
                 (concat pages) rows)
    by (repeat (constructor; [vm_compute; reflexivity|]); constructor).
  assert (H9 : Samples.always_writable name = true) by reflexivity.
  repeat (split; [assumption|]).
  exact (main_exports_everything Examples.server iso_parse Samples.strptime_digits
           Samples.json_load_full 5 Samples.files Samples.always_writable
           Examples.clock stdin self (Some Samples.new_year) None ["unread"] "42"
           pages rows H1 H2 H3 H4 H5 H6 H7 H8 H9).
Defined.

Lemma main_saved_sound_witness :
  let r := Samples.run_full in
  let name := Samples.saved_full.1 in
  let ws := Samples.saved_full.2 in
  main Examples.server iso_parse Samples.strptime_digits Samples.json_load_full 5
    Samples.files Samples.always_writable Examples.clock [""; ""; "unread"]
    = Some r ∧
  saved r = Some (name, ws) ∧
  ended r = Returned ∧
  Samples.always_writable name = true ∧
  ∃ self start_date end_date pages rows,
    pages ≠ [] ∧
    Forall (λ p, p ≠ []) pages ∧
    (∀ i p, pages !! i = Some p →
            Examples.server (page_request self start_date end_date (S i)) = Page p) ∧
    Examples.server (page_request self start_date end_date (S (length pages)))
      = Page [] ∧
    sent r = page_request self start_date end_date <$> seq 1 (S (length pages)) ∧
    Forall2 (λ issue row, report_row iso_parse issue = Ok row) (concat pages) rows ∧
    ws_values ws = (VStr <$> headers) :: rows.
Proof.
  intros r name ws.
  assert (H1 : main Examples.server iso_parse Samples.strptime_digits
                 Samples.json_load_full 5 Samples.files Samples.always_writable
                 Examples.clock [""; ""; "unread"] = Some r)
    by (vm_compute; reflexivity).
  assert (H2 : saved r = Some (name, ws)) by (vm_compute; reflexivity).
  split; [exact H1|]. split; [exact H2|].
  exact (main_saved_sound Examples.server iso_parse Samples.strptime_digits
           Samples.json_load_full 5 Samples.files Samples.always_writable
           Examples.clock [""; ""; "unread"] r name ws H1 H2).
Defined.

Lemma main_requests_witness :
  let r := Samples.run_full in
  let q := page_request Examples.gitlab None None 2 in
  main Examples.server iso_parse Samples.strptime_digits Samples.json_load_full 5
    Samples.files Samples.always_writable Examples.clock [""; ""; "unread"]
    = Some r ∧
  q ∈ sent r ∧
  ∃ content c t project,
    Samples.files "config.json" = FileText content ∧
    Samples.json_load_full content = Some c ∧
    gitlab_token c = Some t ∧
    config_project_id c = Some project ∧
    token q = t ∧
    url q = default "https://gitlab.com" (gitlab_url c) ++ "/api/v4/projects/"
              ++ project ++ "/issues" ∧
    per_page (query q) = 100 ∧
    state (query q) = "all".
Proof.
  intros r q.
  assert (H1 : main Examples.server iso_parse Samples.strptime_digits
                 Samples.json_load_full 5 Samples.files Samples.always_writable
                 Examples.clock [""; ""; "unread"] = Some r)
    by (vm_compute; reflexivity).
  assert (H2 : q ∈ sent r).
  { apply (list_elem_of_lookup_2 _ 1). vm_compute. reflexivity. }
  split; [exact H1|]. split; [exact H2|].
  exact (main_requests Examples.server iso_parse Samples.strptime_digits
           Samples.json_load_full 5 Samples.files Samples.always_writable
           Examples.clock [""; ""; "unread"] r q H1 H2).
Defined.
